(** * Messenger auto-responder: the classification and reply-dispatch pipeline

    A shallow embedding of [app.py] (the Flask webhook of the bot) and the
    proofs of the properties its specification states about it.

    Modelling decisions, in one place:
    - a Python [str] is a Rocq [string], that is the bytes of its UTF-8
      encoding.  [str.lower] and [str.strip] follow the Unicode character
      database, which is no part of this program.  The functions that call
      them are therefore embedded over arbitrary implementations of the two
      methods (module [Unicode]); what is proved there holds of Python's own
      methods on every text.  [PyStr.lower] and [PyStr.strip] are the two
      methods as they act on ASCII text, and the functions of the same
      names outside the module are the instance at them.  [a in b] on two
      strings compares code points; on UTF-8 that is containment of the
      byte sequences, which is what [PyStr.contains] decides;
    - the parsed JSON payload is a [pyval]; every dynamic operation the code
      applies to it ([.get], subscript, [in], iteration, truth value) is a
      function that raises the exception Python raises;
    - the three network collaborators (Send API, Graph API profile lookup,
      Google Sheets) are oracles of an environment [Env]; they may answer
      differently at every call, since they receive the history of effects;
    - effects are recorded in a chronological trace: every [requests.post],
      [requests.get], sheet read and log line appends one entry;
    - an exception unwinds the computation ([Raise]); [try]/[except Exception]
      is [try_except]. *)

From Stdlib Require Import String Ascii List ZArith Bool Lia Floats DecimalString.
Import ListNotations.

Set Warnings "-register-all".

Open Scope string_scope.
Open Scope list_scope.

(* ================================================================== *)
(** ** Python strings *)
(* ================================================================== *)

Module PyStr.

(** [c.lower()] on one ASCII character; a byte above 127 is left as it is. *)
Definition lower_ascii (c : ascii) : ascii :=
  let n := nat_of_ascii c in
  if andb (65 <=? n)%nat (n <=? 90)%nat then ascii_of_nat (n + 32) else c.

(** [s.lower()] as it acts on ASCII text. *)
Fixpoint lower (s : string) : string :=
  match s with
  | EmptyString => EmptyString
  | String c s' => String (lower_ascii c) (lower s')
  end.

(** [c.isspace()] on the ASCII range: tab, line feed, vertical tab, form
    feed, carriage return, the four separators 0x1c-0x1f and the space. *)
Definition is_space (c : ascii) : bool :=
  let n := nat_of_ascii c in
  orb (andb (9 <=? n)%nat (n <=? 13)%nat)
      (orb (andb (28 <=? n)%nat (n <=? 31)%nat) (n =? 32)%nat).

(** [s.lstrip()] as it acts on ASCII text. *)
Fixpoint lstrip (s : string) : string :=
  match s with
  | EmptyString => EmptyString
  | String c s' => if is_space c then lstrip s' else s
  end.

(** [s.rstrip()] as it acts on ASCII text. *)
Fixpoint rstrip (s : string) : string :=
  match s with
  | EmptyString => EmptyString
  | String c s' =>
      match rstrip s' with
      | EmptyString => if is_space c then EmptyString else String c EmptyString
      | r => String c r
      end
  end.

(** [s.strip()] as it acts on ASCII text. *)
Definition strip (s : string) : string := lstrip (rstrip s).

(** [s.startswith(p)] *)
Fixpoint startswith (p s : string) : bool :=
  match p, s with
  | EmptyString, _ => true
  | String _ _, EmptyString => false
  | String a p', String b s' => andb (Ascii.eqb a b) (startswith p' s')
  end.

(** [needle in hay] on two strings: substring containment. *)
Fixpoint contains (needle hay : string) : bool :=
  if startswith needle hay then true
  else match hay with
       | EmptyString => false
       | String _ hay' => contains needle hay'
       end.

(** The truth value of a string: [bool(s)]. *)
Definition truthy (s : string) : bool :=
  match s with EmptyString => false | String _ _ => true end.

(** No white space anywhere in [s]. *)
Fixpoint no_space (s : string) : bool :=
  match s with
  | EmptyString => true
  | String c s' => andb (negb (is_space c)) (no_space s')
  end.

End PyStr.

(* ================================================================== *)
(** ** Python values, exceptions and the dynamic operations used *)
(* ================================================================== *)

(** The exceptions that can occur.  All of them are subclasses of
    [Exception]; [ExternalError] stands for whatever a network library
    raises ([requests.ConnectionError], a gspread API error, the
    [ValueError] of [response.json()], ...). *)
Inductive exn : Type :=
| AttributeError
| KeyError (key : string)
| TypeError
| ExternalError (name : string).

Inductive result (A : Type) : Type :=
| Ok (a : A)
| Raise (e : exn).

Arguments Ok {A} a.
Arguments Raise {A} e.

(** What [request.get_json()] and [response.json()] produce.  A [dict] is
    kept as the list of its items, looked up from the front. *)
Inductive pyval : Type :=
| PNone
| PBool (b : bool)
| PInt (z : Z)
| PFloat (f : float)
| PStr (s : string)
| PList (l : list pyval)
| PDict (d : list (string * pyval)).

Fixpoint dict_lookup {V : Type} (key : string) (d : list (string * V)) : option V :=
  match d with
  | [] => None
  | (k, v) :: d' => if String.eqb k key then Some v else dict_lookup key d'
  end.

Module Py.

(** [bool(v)] *)
Definition truthy (v : pyval) : bool :=
  match v with
  | PNone => false
  | PBool b => b
  | PInt z => negb (z =? 0)%Z
  | PFloat f => negb (PrimFloat.eqb f 0%float)
  | PStr s => PyStr.truthy s
  | PList l => match l with [] => false | _ => true end
  | PDict d => match d with [] => false | _ => true end
  end.

(** [v.get(key, default)]: only a dict has the method. *)
Definition get (v : pyval) (key : string) (default : pyval) : result pyval :=
  match v with
  | PDict d => Ok (match dict_lookup key d with Some x => x | None => default end)
  | _ => Raise AttributeError
  end.

(** [v[key]] with a string key. *)
Definition getitem (v : pyval) (key : string) : result pyval :=
  match v with
  | PDict d => match dict_lookup key d with
               | Some x => Ok x
               | None => Raise (KeyError key)
               end
  | _ => Raise TypeError
  end.

(** [v == s] for a string literal [s]. *)
Definition eq_str (v : pyval) (s : string) : bool :=
  match v with
  | PStr t => String.eqb t s
  | _ => false
  end.

(** [key in v] with a string key. *)
Definition contains (key : string) (v : pyval) : result bool :=
  match v with
  | PDict d => Ok (match dict_lookup key d with Some _ => true | None => false end)
  | PList l => Ok (existsb (fun x => eq_str x key) l)
  | PStr s => Ok (PyStr.contains key s)
  | _ => Raise TypeError
  end.

Fixpoint chars (s : string) : list pyval :=
  match s with
  | EmptyString => []
  | String c s' => PStr (String c EmptyString) :: chars s'
  end.

(** The elements [for x in v] visits: the items of a list, the keys of a
    dict, the characters of a string (here: its bytes). *)
Definition iter (v : pyval) : result (list pyval) :=
  match v with
  | PList l => Ok l
  | PDict d => Ok (map (fun kv => PStr (fst kv)) d)
  | PStr s => Ok (chars s)
  | _ => Raise TypeError
  end.

(** The receiver of a [str] method such as [.lower()]. *)
Definition as_str (v : pyval) : result string :=
  match v with
  | PStr s => Ok s
  | _ => Raise AttributeError
  end.

End Py.

(* ================================================================== *)
(** ** Effects and the environment *)
(* ================================================================== *)

(** The lines the code prints, kept structured.  [LogSendOk] stands for the
    line that shows the first 60 characters of the text. *)
Inductive log_line : Type :=
| LogSheetError (e : exn)
| LogNameError (e : exn)
| LogSendFailed (status_code : Z) (text : string)
| LogSendOk (recipient_id : pyval) (message_text : string)
| LogMsg (sender_id : pyval) (user_text : pyval).

Inductive effect : Type :=
| HttpPost (payload : pyval)      (* requests.post to the Send API *)
| HttpGet (sender_id : pyval)     (* requests.get of the sender's profile *)
| SheetRead                       (* the calls of get_sheet_data *)
| Print (l : log_line).

Definition trace := list effect.

Inductive post_outcome : Type :=
| PostResponse (status_code : Z) (text : string)
| PostRaises (e : exn).

Inductive get_outcome : Type :=
| GetResponse (status_code : Z) (json : result pyval)
| GetRaises (e : exn).

(** Everything outside the program.  Each oracle sees the effects so far.
    [str_compound] is [str(v)] for the values whose rendering is not
    modelled (floats, lists, dicts). *)
Record Env : Type := {
  requests_post : trace -> pyval -> post_outcome;
  requests_get : trace -> pyval -> get_outcome;
  sheet_get_all_values : trace -> result (list (list string));
  str_compound : pyval -> string
}.

(** [str(v)], as an f-string field renders it. *)
Definition py_str (w : Env) (v : pyval) : string :=
  match v with
  | PStr s => s
  | PNone => "None"
  | PBool true => "True"
  | PBool false => "False"
  | PInt z => NilZero.string_of_int (Z.to_int z)
  | _ => str_compound w v
  end.

(** Computations: a trace in, a value or an exception and a trace out. *)
Definition M (A : Type) : Type := trace -> result A * trace.

Definition ret {A} (a : A) : M A := fun tr => (Ok a, tr).

Definition raise {A} (e : exn) : M A := fun tr => (Raise e, tr).

Definition bind {A B} (m : M A) (k : A -> M B) : M B :=
  fun tr => match m tr with
            | (Ok a, tr') => k a tr'
            | (Raise e, tr') => (Raise e, tr')
            end.

Definition lift {A} (r : result A) : M A := fun tr => (r, tr).

Definition emit (e : effect) : M unit := fun tr => (Ok tt, tr ++ [e]).

(** [try: m except Exception as e: h e] *)
Definition try_except {A} (m : M A) (h : exn -> M A) : M A :=
  fun tr => match m tr with
            | (Ok a, tr') => (Ok a, tr')
            | (Raise e, tr') => h e tr'
            end.

Notation "x <- m ;; k" := (bind m (fun x => k))
  (at level 61, m at next level, right associativity).
Notation "m ;;; k" := (bind m (fun _ => k))
  (at level 61, right associativity).

(** [for x in xs: body x] *)
Fixpoint for_each {A} (xs : list A) (body : A -> M unit) : M unit :=
  match xs with
  | [] => ret tt
  | x :: xs' => body x ;;; for_each xs' body
  end.

(* ================================================================== *)
(** ** Configuration *)
(* ================================================================== *)

Definition FALLBACK_MESSAGE : string :=
  "Sorry, I didn't quite understand that. 😅 Please choose from the options below or contact us directly!".

Definition GREETING_KEYWORDS : list string :=
  ["hi"; "hello"; "hey"; "start"; "help"; "menu"].

Record button : Type := { title : string; payload : string }.

Definition QUICK_REPLY_BUTTONS : list button :=
  [ {| title := "💰 Pricing";    payload := "PRICE" |};
    {| title := "🕐 Our Hours";  payload := "HOURS" |};
    {| title := "📍 Location";   payload := "LOCATION" |};
    {| title := "📞 Contact Us"; payload := "CONTACT" |} ].

Definition PAYLOAD_REPLIES : list (string * string) :=
  [ ("PRICE",    "💰 Our pricing starts at $99/month. Visit our website at yourwebsite.com for full details!");
    ("HOURS",    "🕐 We're open Monday to Friday, 9:00 AM – 6:00 PM.");
    ("LOCATION", "📍 You can find us at 123 Main Street, Manila. We'd love to see you!");
    ("CONTACT",  "📞 You can reach us at hello@yourbusiness.com or call +63 900 000 0000.") ].

(** [PAYLOAD_REPLIES.get(key, default)]: a list or a dict cannot be hashed;
    any other value that is not a string is simply not a key. *)
Definition PAYLOAD_REPLIES_get (key : pyval) (default : string) : result string :=
  match key with
  | PList _ | PDict _ => Raise TypeError
  | PStr s => Ok (match dict_lookup s PAYLOAD_REPLIES with
                  | Some r => r
                  | None => default
                  end)
  | _ => Ok default
  end.

(* ================================================================== *)
(** ** Google Sheets: keyword lookup *)
(* ================================================================== *)

(** [get_sheet_data()]: everything up to [sheet.get_all_values()] is the
    oracle; the header row is dropped here. *)
Definition get_sheet_data (w : Env) : M (list (list string)) :=
  rows <- (fun tr => (sheet_get_all_values w tr, tr ++ [SheetRead])) ;;
  ret (tl rows).

(** The [for row in rows] loop of [find_reply_from_sheet]; [None] when the
    loop ends without a [return].  Here with the ASCII methods; over any
    [str.lower] and [str.strip] it is [Unicode.scan_rows]. *)
Fixpoint scan_rows (user_message_lower : string) (rows : list (list string))
  : option string :=
  match rows with
  | [] => None
  | row :: rest =>
      match row with
      | c0 :: c1 :: _ =>
          let keyword := PyStr.lower (PyStr.strip c0) in
          let reply := PyStr.strip c1 in
          if andb (PyStr.truthy keyword) (PyStr.contains keyword user_message_lower)
          then Some reply
          else scan_rows user_message_lower rest
      | _ => scan_rows user_message_lower rest
      end
  end.

Definition find_reply_from_sheet (w : Env) (user_message : string)
  : M (option string) :=
  try_except
    (rows <- get_sheet_data w ;;
     let user_message_lower := PyStr.lower user_message in
     ret (scan_rows user_message_lower rows))
    (fun e => emit (Print (LogSheetError e)) ;;; ret None).

(* ================================================================== *)
(** ** Graph API: the sender's first name *)
(* ================================================================== *)

Definition get_user_name (w : Env) (sender_id : pyval) : M pyval :=
  try_except
    (response <- (fun tr =>
                    match requests_get w tr sender_id with
                    | GetResponse status_code json =>
                        (Ok (status_code, json), tr ++ [HttpGet sender_id])
                    | GetRaises e => (Raise e, tr ++ [HttpGet sender_id])
                    end) ;;
     if (fst response =? 200)%Z
     then body <- lift (snd response) ;;
          lift (Py.get body "first_name" (PStr "there"))
     else ret (PStr "there"))
    (fun e => emit (Print (LogNameError e)) ;;; ret (PStr "there")).

(* ================================================================== *)
(** ** Messenger Send API *)
(* ================================================================== *)

Definition quick_reply_json (qr : button) : pyval :=
  PDict [ ("content_type", PStr "text");
          ("title", PStr (title qr));
          ("payload", PStr (payload qr)) ].

(** The JSON body [send_message] posts. *)
Definition send_payload (recipient_id : pyval) (message_text : string)
    (quick_replies : option (list button)) : pyval :=
  let message :=
    ("text", PStr message_text) ::
    match quick_replies with
    | Some (qr :: qrs) =>
        [("quick_replies", PList (map quick_reply_json (qr :: qrs)))]
    | _ => []
    end in
  PDict [ ("recipient", PDict [("id", recipient_id)]);
          ("message", PDict message);
          ("messaging_type", PStr "RESPONSE") ].

Definition send_message (w : Env) (recipient_id : pyval) (message_text : string)
    (quick_replies : option (list button)) : M unit :=
  let payload := send_payload recipient_id message_text quick_replies in
  response <- (fun tr =>
                 match requests_post w tr payload with
                 | PostResponse status_code text =>
                     (Ok (status_code, text), tr ++ [HttpPost payload])
                 | PostRaises e => (Raise e, tr ++ [HttpPost payload])
                 end) ;;
  if negb (fst response =? 200)%Z
  then emit (Print (LogSendFailed (fst response) (snd response)))
  else emit (Print (LogSendOk recipient_id message_text)).

Definition welcome_text (name : string) : string :=
  ("👋 Hi, " ++ name
   ++ "! How can we help you today? Choose an option below or type your question:")%string.

Definition send_welcome (w : Env) (recipient_id : pyval) : M unit :=
  name <- get_user_name w recipient_id ;;
  send_message w recipient_id (welcome_text (py_str w name))
               (Some QUICK_REPLY_BUTTONS).

(* ================================================================== *)
(** ** The webhook: POST /webhook *)
(* ================================================================== *)

(** CASE 2 of the loop body of [handle_message], from the [print] of the
    message on: greeting, sheet lookup, fallback.  Here with the ASCII
    methods; over any [str.lower] and [str.strip] it is
    [Unicode.handle_text]. *)
Definition handle_text (w : Env) (sender_id user_text : pyval) : M unit :=
  emit (Print (LogMsg sender_id user_text)) ;;;
  text <- lift (Py.as_str user_text) ;;
  let user_text_lower := PyStr.strip (PyStr.lower text) in
  if existsb (fun keyword => PyStr.contains keyword user_text_lower)
             GREETING_KEYWORDS
  then send_welcome w sender_id
  else
    sheet_reply <- find_reply_from_sheet w text ;;
    match sheet_reply with
    | Some (String c r) =>
        send_message w sender_id (String c r) (Some QUICK_REPLY_BUTTONS)
    | _ => send_message w sender_id FALLBACK_MESSAGE (Some QUICK_REPLY_BUTTONS)
    end.

(** The body of the inner loop of [handle_message]; [continue] is [ret tt]. *)
Definition handle_event (w : Env) (event : pyval) : M unit :=
  sender <- lift (Py.getitem event "sender") ;;
  sender_id <- lift (Py.getitem sender "id") ;;
  has_message <- lift (Py.contains "message" event) ;;
  if negb has_message then ret tt
  else
    msg <- lift (Py.getitem event "message") ;;
    is_echo <- lift (Py.get msg "is_echo" PNone) ;;
    if Py.truthy is_echo then ret tt
    else
      has_quick_reply <- lift (Py.contains "quick_reply" msg) ;;
      if has_quick_reply
      then
        quick_reply <- lift (Py.getitem msg "quick_reply") ;;
        button_payload <- lift (Py.getitem quick_reply "payload") ;;
        reply <- lift (PAYLOAD_REPLIES_get button_payload FALLBACK_MESSAGE) ;;
        send_message w sender_id reply (Some QUICK_REPLY_BUTTONS)
      else
        user_text <- lift (Py.get msg "text" PNone) ;;
        if negb (Py.truthy user_text) then ret tt
        else handle_text w sender_id user_text.

(** What a Flask view returns: a body and a status code. *)
Inductive body : Type :=
| Text (s : string)
| Json (v : pyval).

Definition response : Type := (body * Z)%type.

Definition handle_message (w : Env) (data : pyval) : M response :=
  object <- lift (Py.get data "object" PNone) ;;
  if negb (Py.eq_str object "page")
  then ret (Text "Not a page event", 404%Z)
  else
    entries <- lift (Py.get data "entry" (PList [])) ;;
    entries <- lift (Py.iter entries) ;;
    for_each entries
      (fun entry =>
         events <- lift (Py.get entry "messaging" (PList [])) ;;
         events <- lift (Py.iter events) ;;
         for_each events (handle_event w)) ;;;
    ret (Json (PDict [("status", PStr "ok")]), 200%Z).

(* ================================================================== *)
(** ** Vocabulary of the specification *)
(* ================================================================== *)

(** [s] occurs in [t]. *)
Definition substring (s t : string) : Prop :=
  exists a b, t = (a ++ s ++ b)%string.

(** [kw] occurs in [text] up to letter case: some stretch [u] of [text]
    has the same lower-case form as [kw]. *)
Definition ci_substring (kw text : string) : Prop :=
  exists a u b, text = (a ++ u ++ b)%string /\ PyStr.lower u = PyStr.lower kw.

(** The text holds a greeting keyword, in any letter case. *)
Definition is_greeting (text : string) : Prop :=
  exists kw, In kw GREETING_KEYWORDS /\ ci_substring kw text.

(** A data row of the keyword table matches the text: it has a keyword
    cell and a reply cell, and its keyword (surrounding blanks removed) is
    not empty and occurs in the text up to letter case. *)
Definition row_matches (text : string) (row : list string) : Prop :=
  exists k r rest,
    row = k :: r :: rest /\ PyStr.strip k <> "" /\ ci_substring (PyStr.strip k) text.

(** The decision procedure for [row_matches]. *)
Definition row_matchesb (text : string) (row : list string) : bool :=
  match row with
  | k :: _ :: _ =>
      andb (PyStr.truthy (PyStr.strip k))
           (PyStr.contains (PyStr.lower (PyStr.strip k)) (PyStr.lower text))
  | _ => false
  end.

(** The reply the PayloadReplyTable gives for a payload code: its entry,
    or the fallback message when it has none. *)
Definition payload_reply (code : string) : string :=
  match dict_lookup code PAYLOAD_REPLIES with
  | Some reply => reply
  | None => FALLBACK_MESSAGE
  end.

(** The history once the text branch has printed the message it received;
    this is what the collaborators see when the branch calls them. *)
Definition received (tr : trace) (sender_id : pyval) (text : string) : trace :=
  tr ++ [Print (LogMsg sender_id (PStr text))].

(** The bodies sent to the Send API, oldest first. *)
Fixpoint posts (tr : trace) : list pyval :=
  match tr with
  | [] => []
  | HttpPost p :: tr' => p :: posts tr'
  | _ :: tr' => posts tr'
  end.

(** How often the keyword table was read. *)
Fixpoint sheet_reads (tr : trace) : nat :=
  match tr with
  | [] => 0
  | SheetRead :: tr' => S (sheet_reads tr')
  | _ :: tr' => sheet_reads tr'
  end.

(** The outgoing message every reply of the dispatcher has: the text with
    the standard buttons attached. *)
Definition reply_payload (sender_id : pyval) (text : string) : pyval :=
  send_payload sender_id text (Some QUICK_REPLY_BUTTONS).

(** An inbound sub-event as the platform documents it (§6 of the
    specification): a sender, and possibly a message with an echo flag, a
    quick-reply payload code and a text. *)
Record Message : Type := {
  is_echo : option bool;
  quickReplyPayload : option string;
  text : option string
}.

Record InboundEvent : Type := {
  senderId : string;
  message : option Message
}.

Definition optional_item (key : string) (v : option pyval) : list (string * pyval) :=
  match v with
  | Some x => [(key, x)]
  | None => []
  end.

Definition encode_message (m : Message) : pyval :=
  PDict (optional_item "is_echo" (option_map PBool (is_echo m))
         ++ optional_item "quick_reply"
              (option_map (fun p => PDict [("payload", PStr p)]) (quickReplyPayload m))
         ++ optional_item "text" (option_map PStr (text m))).

Definition encode_event (e : InboundEvent) : pyval :=
  PDict (("sender", PDict [("id", PStr (senderId e))])
         :: optional_item "message" (option_map encode_message (message e))).

(** A page-level envelope: entries, each with its messaging sub-events. *)
Definition encode_payload (entries : list (list InboundEvent)) : pyval :=
  PDict [ ("object", PStr "page");
          ("entry",
           PList (map (fun events =>
                         PDict [("messaging", PList (map encode_event events))])
                      entries)) ].

Definition flagged_echo (m : Message) : bool :=
  match is_echo m with Some true => true | _ => false end.

Definition carries_text (m : Message) : bool :=
  match text m with Some (String _ _) => true | _ => false end.

Definition carries_payload (m : Message) : bool :=
  match quickReplyPayload m with Some _ => true | None => false end.

(** A qualifying event: a message body, not an echo, with a quick-reply
    payload or a text. *)
Definition qualifying (e : InboundEvent) : bool :=
  match message e with
  | None => false
  | Some m => andb (negb (flagged_echo m)) (orb (carries_payload m) (carries_text m))
  end.

(** The Reply Gateway answers every request (with whatever status). *)
Definition gateway_answers (w : Env) : Prop :=
  forall tr p, exists status_code text, requests_post w tr p = PostResponse status_code text.

(** The profile lookup did not deliver a name: network error, non-success
    status, a body that is not JSON or not an object, or no [first_name]. *)
Definition lookup_failed (o : get_outcome) : bool :=
  match o with
  | GetRaises _ => true
  | GetResponse status_code json =>
      if (status_code =? 200)%Z
      then match json with
           | Ok (PDict d) => match dict_lookup "first_name" d with
                             | Some _ => false
                             | None => true
                             end
           | _ => true
           end
      else true
  end.

(** The name a successful lookup delivers. *)
Definition delivered_name (o : get_outcome) : option pyval :=
  match o with
  | GetResponse status_code (Ok (PDict d)) =>
      if (status_code =? 200)%Z then dict_lookup "first_name" d else None
  | _ => None
  end.

(* ------------------------------------------------------------------ *)
(** *** Scenarios used to exercise the statements *)
(* ------------------------------------------------------------------ *)

Definition sample_table : list (list string) :=
  [ ["Keyword"; "Reply"];
    ["refund"; "Refunds take 5 days."];
    ["price"; "Our pricing starts at $99/month"];
    ["pric"; "Second row"] ].

(** Every collaborator works; the profile lookup answers Maria. *)
Definition world_ok : Env := {|
  requests_post := fun _ _ => PostResponse 200 "{}";
  requests_get := fun _ _ =>
    GetResponse 200 (Ok (PDict [("first_name", PStr "Maria"); ("id", PStr "42")]));
  sheet_get_all_values := fun _ => Ok sample_table;
  str_compound := fun _ => "<value>"
|}.

(** Every collaborator fails: the Send API answers 400, the profile lookup
    and the sheet raise. *)
Definition world_down : Env := {|
  requests_post := fun _ _ => PostResponse 400 "{}";
  requests_get := fun _ _ => GetRaises (ExternalError "ConnectionError");
  sheet_get_all_values := fun _ => Raise (ExternalError "APIError");
  str_compound := fun _ => "<value>"
|}.

(** The Send API cannot be reached: [requests.post] raises. *)
Definition world_unreachable : Env := {|
  requests_post := fun _ _ => PostRaises (ExternalError "ConnectionError");
  requests_get := fun _ _ =>
    GetResponse 200 (Ok (PDict [("first_name", PStr "Maria")]));
  sheet_get_all_values := fun _ => Ok sample_table;
  str_compound := fun _ => "<value>"
|}.

(** The profile carries an empty first name. *)
Definition world_blank_name : Env := {|
  requests_post := fun _ _ => PostResponse 200 "{}";
  requests_get := fun _ _ => GetResponse 200 (Ok (PDict [("first_name", PStr "")]));
  sheet_get_all_values := fun _ => Ok sample_table;
  str_compound := fun _ => "<value>"
|}.

(** The table holds a keyword whose reply cell was left empty. *)
Definition world_blank_reply : Env := {|
  requests_post := fun _ _ => PostResponse 200 "{}";
  requests_get := fun _ _ => GetResponse 200 (Ok (PDict [("first_name", PStr "Maria")]));
  sheet_get_all_values := fun _ =>
    Ok [ ["Keyword"; "Reply"]; ["price"; ""]; ["pric"; "Second row"] ];
  str_compound := fun _ => "<value>"
|}.

Definition text_event (sender text : string) : InboundEvent :=
  {| senderId := sender;
     message := Some {| is_echo := None; quickReplyPayload := None; text := Some text |} |}.

Definition tap_event (sender code : string) : InboundEvent :=
  {| senderId := sender;
     message := Some {| is_echo := None; quickReplyPayload := Some code; text := None |} |}.

Definition echo_event (sender text : string) : InboundEvent :=
  {| senderId := sender;
     message := Some {| is_echo := Some true; quickReplyPayload := None; text := Some text |} |}.

(* ================================================================== *)
(** ** The webhook: GET /webhook *)
(* ================================================================== *)

(** The two lines [verify_webhook] prints. *)
Inductive verify_log : Type :=
| LogVerified
| LogVerificationFailed.

(** [a == b] on two values that are a string or [None]. *)
Definition py_opt_eqb (a b : option string) : bool :=
  match a, b with
  | Some x, Some y => String.eqb x y
  | None, None => true
  | _, _ => false
  end.

(** [verify_webhook()]: [args] are the query parameters ([request.args],
    whose [.get] gives the first value of a name or [None]), [VERIFY_TOKEN]
    is the environment variable, [None] when it is not set.  The result is
    the line printed and the pair the view returns. *)
Definition verify_webhook (VERIFY_TOKEN : option string)
    (args : list (string * string)) : verify_log * (option string * Z) :=
  let mode := dict_lookup "hub.mode" args in
  let token := dict_lookup "hub.verify_token" args in
  let challenge := dict_lookup "hub.challenge" args in
  if andb (py_opt_eqb mode (Some "subscribe")) (py_opt_eqb token VERIFY_TOKEN)
  then (LogVerified, (challenge, 200%Z))
  else (LogVerificationFailed, (Some "Forbidden", 403%Z)).

(* ================================================================== *)
(** ** Further vocabulary *)
(* ================================================================== *)

(** The profile requests made. *)
Fixpoint gets (tr : trace) : nat :=
  match tr with
  | [] => 0
  | HttpGet _ :: tr' => S (gets tr')
  | _ :: tr' => gets tr'
  end.

(** The greeting test of [handle_message], as a function of the text, with
    the ASCII methods. *)
Definition greeting_test (text : string) : bool :=
  existsb (fun keyword => PyStr.contains keyword (PyStr.strip (PyStr.lower text)))
          GREETING_KEYWORDS.

(** Only white space (or nothing at all). *)
Fixpoint all_space (s : string) : bool :=
  match s with
  | EmptyString => true
  | String c s' => andb (PyStr.is_space c) (all_space s')
  end.

(** Reading a posted body back: the recipient, the text, the buttons. *)
Definition sent_recipient (body : pyval) : option pyval :=
  match Py.getitem body "recipient" with
  | Ok r => match Py.getitem r "id" with Ok x => Some x | Raise _ => None end
  | Raise _ => None
  end.

Definition sent_text (body : pyval) : option string :=
  match Py.getitem body "message" with
  | Ok m => match Py.getitem m "text" with Ok (PStr t) => Some t | _ => None end
  | Raise _ => None
  end.

Definition decode_button (v : pyval) : option button :=
  match Py.getitem v "content_type", Py.getitem v "title", Py.getitem v "payload" with
  | Ok (PStr "text"), Ok (PStr t), Ok (PStr p) => Some {| title := t; payload := p |}
  | _, _, _ => None
  end.

Fixpoint decode_buttons (l : list pyval) : option (list button) :=
  match l with
  | [] => Some []
  | v :: l' =>
      match decode_button v, decode_buttons l' with
      | Some b, Some bs => Some (b :: bs)
      | _, _ => None
      end
  end.

(** [None] when the message has no [quick_replies] key. *)
Definition sent_quick_replies (body : pyval) : option (list button) :=
  match Py.getitem body "message" with
  | Ok m => match Py.getitem m "quick_replies" with
            | Ok (PList l) => decode_buttons l
            | _ => None
            end
  | Raise _ => None
  end.

(** A page delivery built from raw entries, and an entry from raw events. *)
Definition page (entries : list pyval) : pyval :=
  PDict [("object", PStr "page"); ("entry", PList entries)].

Definition entry_of (events : list pyval) : pyval :=
  PDict [("messaging", PList events)].

(** The text an event hands to the text branch, if it gets that far. *)
Definition routed_text (e : InboundEvent) : option string :=
  match message e with
  | None => None
  | Some m =>
      if flagged_echo m then None
      else match quickReplyPayload m with
           | Some _ => None
           | None => match text m with
                     | Some (String c r) => Some (String c r)
                     | _ => None
                     end
           end
  end.

(** The Reply Gateway cannot be reached at all. *)
Definition gateway_unreachable (w : Env) : Prop :=
  forall tr p, exists e, requests_post w tr p = PostRaises e.

Definition is_str (v : pyval) : bool :=
  match v with PStr _ => true | _ => false end.

Definition unhashable (v : pyval) : bool :=
  match v with PList _ | PDict _ => true | _ => false end.

Definition acknowledgment : response :=
  (Json (PDict [("status", PStr "ok")]), 200%Z).

(** A row the lookup can use: a keyword cell that is not blank, and a
    reply cell. *)
Definition usable (row : list string) : bool :=
  match row with
  | k :: _ :: _ => PyStr.truthy (PyStr.strip k)
  | _ => false
  end.

(* ================================================================== *)
(** ** The text path over Python's own [str.lower] and [str.strip] *)
(* ================================================================== *)

(** The functions of [app.py] that call [.lower()] or [.strip()], over
    arbitrary implementations [str_lower] and [str_strip] of the two
    methods, and the vocabulary to speak about them.  Nothing is assumed of
    the two: every statement about these definitions holds in particular
    for the methods of the Python that runs the program. *)
Module Unicode.

Section StrMethods.

Variable str_lower : string -> string.
Variable str_strip : string -> string.

(** The [for row in rows] loop of [find_reply_from_sheet]. *)
Fixpoint scan_rows (user_message_lower : string) (rows : list (list string))
  : option string :=
  match rows with
  | [] => None
  | row :: rest =>
      match row with
      | c0 :: c1 :: _ =>
          let keyword := str_lower (str_strip c0) in
          let reply := str_strip c1 in
          if andb (PyStr.truthy keyword) (PyStr.contains keyword user_message_lower)
          then Some reply
          else scan_rows user_message_lower rest
      | _ => scan_rows user_message_lower rest
      end
  end.

Definition find_reply_from_sheet (w : Env) (user_message : string)
  : M (option string) :=
  try_except
    (rows <- get_sheet_data w ;;
     let user_message_lower := str_lower user_message in
     ret (scan_rows user_message_lower rows))
    (fun e => emit (Print (LogSheetError e)) ;;; ret None).

(** CASE 2 of the loop body of [handle_message], from the [print] on. *)
Definition handle_text (w : Env) (sender_id user_text : pyval) : M unit :=
  emit (Print (LogMsg sender_id user_text)) ;;;
  text <- lift (Py.as_str user_text) ;;
  let user_text_lower := str_strip (str_lower text) in
  if existsb (fun keyword => PyStr.contains keyword user_text_lower)
             GREETING_KEYWORDS
  then send_welcome w sender_id
  else
    sheet_reply <- find_reply_from_sheet w text ;;
    match sheet_reply with
    | Some (String c r) =>
        send_message w sender_id (String c r) (Some QUICK_REPLY_BUTTONS)
    | _ => send_message w sender_id FALLBACK_MESSAGE (Some QUICK_REPLY_BUTTONS)
    end.

(** The body of the inner loop of [handle_message]. *)
Definition handle_event (w : Env) (event : pyval) : M unit :=
  sender <- lift (Py.getitem event "sender") ;;
  sender_id <- lift (Py.getitem sender "id") ;;
  has_message <- lift (Py.contains "message" event) ;;
  if negb has_message then ret tt
  else
    msg <- lift (Py.getitem event "message") ;;
    is_echo <- lift (Py.get msg "is_echo" PNone) ;;
    if Py.truthy is_echo then ret tt
    else
      has_quick_reply <- lift (Py.contains "quick_reply" msg) ;;
      if has_quick_reply
      then
        quick_reply <- lift (Py.getitem msg "quick_reply") ;;
        button_payload <- lift (Py.getitem quick_reply "payload") ;;
        reply <- lift (PAYLOAD_REPLIES_get button_payload FALLBACK_MESSAGE) ;;
        send_message w sender_id reply (Some QUICK_REPLY_BUTTONS)
      else
        user_text <- lift (Py.get msg "text" PNone) ;;
        if negb (Py.truthy user_text) then ret tt
        else handle_text w sender_id user_text.

Definition handle_message (w : Env) (data : pyval) : M response :=
  object <- lift (Py.get data "object" PNone) ;;
  if negb (Py.eq_str object "page")
  then ret (Text "Not a page event", 404%Z)
  else
    entries <- lift (Py.get data "entry" (PList [])) ;;
    entries <- lift (Py.iter entries) ;;
    for_each entries
      (fun entry =>
         events <- lift (Py.get entry "messaging" (PList [])) ;;
         events <- lift (Py.iter events) ;;
         for_each events (handle_event w)) ;;;
    ret (Json (PDict [("status", PStr "ok")]), 200%Z).

(** The text, lower-cased and trimmed, holds a greeting keyword. *)
Definition greets (text : string) : Prop :=
  exists keyword,
    In keyword GREETING_KEYWORDS /\ substring keyword (str_strip (str_lower text)).

(** A data row matches the text: it has a keyword cell and a reply cell,
    and its keyword, trimmed and lower-cased, is not empty and occurs in the
    lower-cased text. *)
Definition row_matches (text : string) (row : list string) : Prop :=
  exists k r rest,
    row = k :: r :: rest /\
    str_lower (str_strip k) <> "" /\
    substring (str_lower (str_strip k)) (str_lower text).

(** The keyword source gives no reply for the text: it raised, or no data
    row (the header row apart) matches. *)
Definition no_keyword_reply (source : result (list (list string))) (text : string)
  : Prop :=
  match source with
  | Raise _ => True
  | Ok table => forall row, In row (tl table) -> ~ row_matches text row
  end.

(** The decision procedures of [greets] and [row_matches]. *)
Definition greeting_test (text : string) : bool :=
  existsb (fun keyword => PyStr.contains keyword (str_strip (str_lower text)))
          GREETING_KEYWORDS.

Definition row_matchesb (text : string) (row : list string) : bool :=
  match row with
  | k :: _ :: _ =>
      andb (PyStr.truthy (str_lower (str_strip k)))
           (PyStr.contains (str_lower (str_strip k)) (str_lower text))
  | _ => false
  end.

End StrMethods.

End Unicode.

(** Runs the monadic operations of a goal. *)
Ltac run := unfold bind, lift, ret, raise, emit, try_except; simpl.

(* ================================================================== *)
(** * Properties *)
(* ================================================================== *)

(** ** Strings *)

Example lower_ex : PyStr.lower "HELLO there" = "hello there".
Proof. reflexivity. Qed.

Example strip_ex : PyStr.strip "  Hi you  " = "Hi you".
Proof. reflexivity. Qed.

Example contains_ex :
  PyStr.contains "price" "what's your price?" = true /\
  PyStr.contains "hours" "what's your price?" = false /\
  PyStr.contains "" "" = true.
Proof. repeat split. Qed.

Module PyStrFacts.
Import PyStr.

Local Open Scope string_scope.

Lemma append_nil_r (s : string) : s ++ "" = s.
Proof. induction s as [|c s IH]; simpl; [reflexivity | now rewrite IH]. Qed.

Lemma append_assoc (a b c : string) : (a ++ b) ++ c = a ++ b ++ c.
Proof. induction a as [|x a IH]; simpl; [reflexivity | now rewrite IH]. Qed.

Lemma append_eq_nil (a b : string) : a ++ b = "" -> a = "" /\ b = "".
Proof. destruct a; simpl; intros H; [now split | discriminate]. Qed.

Lemma startswith_iff (p s : string) :
  startswith p s = true <-> exists b, s = p ++ b.
Proof.
  revert s; induction p as [|a p IH]; intros s; simpl.
  - split; [intros _; now exists s | trivial].
  - destruct s as [|b s].
    + split; [discriminate | intros [x H]; discriminate].
    + rewrite andb_true_iff, Ascii.eqb_eq, IH. split.
      * intros [-> [x ->]]. now exists x.
      * intros [x H]. injection H as -> ->. split; [reflexivity | now exists x].
Qed.

Lemma contains_iff (needle hay : string) :
  contains needle hay = true <-> substring needle hay.
Proof.
  induction hay as [|c hay IH]; simpl.
  - destruct (startswith needle "") eqn:E.
    + split; [intros _ | trivial].
      apply startswith_iff in E as [b E]. now exists "", b.
    + split; [discriminate | intros (a & b & H)].
      symmetry in H. apply append_eq_nil in H as [-> H]. simpl in H.
      assert (startswith needle "" = true) by (apply startswith_iff; now exists b).
      congruence.
  - destruct (startswith needle (String c hay)) eqn:E.
    + split; [intros _ | trivial].
      apply startswith_iff in E as [b E]. now exists "", b.
    + rewrite IH. split.
      * intros (a & b & ->). now exists (String c a), b.
      * intros (a & b & H). destruct a as [|x a]; simpl in H.
        -- assert (startswith needle (String c hay) = true)
             by (apply startswith_iff; now exists b).
           congruence.
        -- injection H as _ ->. now exists a, b.
Qed.

Lemma lower_app (a b : string) : lower (a ++ b) = lower a ++ lower b.
Proof. induction a as [|c a IH]; simpl; [reflexivity | now rewrite IH]. Qed.

Lemma lower_app_inv (t x y : string) :
  lower t = x ++ y -> exists t1 t2, t = t1 ++ t2 /\ lower t1 = x /\ lower t2 = y.
Proof.
  revert t; induction x as [|c x IH]; intros t H; simpl in H.
  - now exists "", t.
  - destruct t as [|d t]; simpl in H; [discriminate |].
    injection H as Hc Ht. destruct (IH _ Ht) as (t1 & t2 & -> & H1 & H2).
    exists (String d t1), t2. simpl. now rewrite Hc, H1.
Qed.

(** Containment up to letter case is containment of the lower-cased
    keyword in the lower-cased text. *)
Lemma ci_substring_iff (kw text : string) :
  ci_substring kw text <-> substring (lower kw) (lower text).
Proof.
  split.
  - intros (a & u & b & -> & Hu).
    exists (lower a), (lower b). now rewrite !lower_app, Hu.
  - intros (x & y & H).
    apply lower_app_inv in H as (a & t2 & -> & Ha & H2).
    apply lower_app_inv in H2 as (u & b & -> & Hu & Hb).
    now exists a, u, b.
Qed.

Lemma truthy_iff (s : string) : truthy s = true <-> s <> "".
Proof. destruct s; simpl; split; congruence. Qed.

Lemma lower_eq_nil (s : string) : lower s = "" <-> s = "".
Proof. destruct s; simpl; split; congruence. Qed.

Lemma rstrip_cons_nonspace (c : ascii) (s : string) :
  is_space c = false -> rstrip (String c s) = String c (rstrip s).
Proof. intros H. simpl. rewrite H. now destruct (rstrip s). Qed.

Lemma rstrip_no_space_app (kw b : string) :
  no_space kw = true -> rstrip (kw ++ b) = kw ++ rstrip b.
Proof.
  induction kw as [|c kw IH]; intros H; [reflexivity |].
  simpl in H. apply andb_true_iff in H as [Hc Hk].
  apply negb_true_iff in Hc.
  change (String c kw ++ b) with (String c (kw ++ b)).
  rewrite rstrip_cons_nonspace by assumption. now rewrite IH.
Qed.

Lemma rstrip_app_nonempty (a y : string) :
  rstrip y <> "" -> rstrip (a ++ y) = a ++ rstrip y.
Proof.
  intros Hy. induction a as [|c a IH]; [reflexivity |].
  simpl. rewrite IH. destruct (a ++ rstrip y) eqn:E; [| reflexivity].
  apply append_eq_nil in E as [_ E]. contradiction.
Qed.

Lemma lstrip_keeps (a : string) (c : ascii) (s : string) :
  is_space c = false -> exists a', lstrip (a ++ String c s) = a' ++ String c s.
Proof.
  intros Hc. induction a as [|x a [a' IH]]; simpl.
  - rewrite Hc. now exists "".
  - destruct (is_space x); [now exists a' | now exists (String x a)].
Qed.

(** Stripping a text keeps every occurrence of a word without blanks. *)
Lemma strip_keeps_substring (kw s : string) :
  kw <> "" -> no_space kw = true -> substring kw s -> substring kw (strip s).
Proof.
  intros Hne Hns (a & b & ->). unfold strip.
  destruct kw as [|c kw]; [contradiction |].
  assert (Hc : is_space c = false).
  { simpl in Hns. apply andb_true_iff in Hns as [Hc _]. now apply negb_true_iff. }
  rewrite rstrip_app_nonempty.
  - rewrite rstrip_no_space_app by assumption.
    change (String c kw ++ rstrip b) with (String c (kw ++ rstrip b)).
    destruct (lstrip_keeps a c (kw ++ rstrip b) Hc) as [a' ->].
    now exists a', (rstrip b).
  - rewrite rstrip_no_space_app by assumption. discriminate.
Qed.

Lemma row_matchesb_iff (text : string) (row : list string) :
  row_matchesb text row = true <-> row_matches text row.
Proof.
  unfold row_matchesb, row_matches. split.
  - destruct row as [|k [|r rest]]; try discriminate.
    rewrite andb_true_iff, truthy_iff, contains_iff, <- ci_substring_iff.
    intros [H1 H2]. now exists k, r, rest.
  - intros (k & r & rest & -> & H1 & H2).
    rewrite andb_true_iff, truthy_iff, contains_iff, <- ci_substring_iff.
    now split.
Qed.

End PyStrFacts.

(** ** Traces and the three collaborators *)

Lemma posts_app (tr1 tr2 : trace) : posts (tr1 ++ tr2) = posts tr1 ++ posts tr2.
Proof.
  induction tr1 as [|e tr1 IH]; simpl; [reflexivity |].
  destruct e; simpl; now rewrite IH.
Qed.

Lemma sheet_reads_app (tr1 tr2 : trace) :
  sheet_reads (tr1 ++ tr2) = sheet_reads tr1 + sheet_reads tr2.
Proof.
  induction tr1 as [|e tr1 IH]; simpl; [reflexivity |].
  destruct e; simpl; now rewrite IH.
Qed.

(** [send_message] makes exactly one request; a response of any status is
    logged, an exception of [requests.post] leaves the function. *)
Lemma send_message_run (w : Env) (rid : pyval) (txt : string)
    (qrs : option (list button)) (tr : trace) :
  send_message w rid txt qrs tr =
  match requests_post w tr (send_payload rid txt qrs) with
  | PostResponse status_code body =>
      (Ok tt,
       tr ++ [HttpPost (send_payload rid txt qrs);
              Print (if (status_code =? 200)%Z
                     then LogSendOk rid txt
                     else LogSendFailed status_code body)])
  | PostRaises e => (Raise e, tr ++ [HttpPost (send_payload rid txt qrs)])
  end.
Proof.
  unfold send_message. run.
  destruct (requests_post w tr (send_payload rid txt qrs)) as [st body|e];
    [| reflexivity].
  simpl. destruct (st =? 200)%Z; simpl; now rewrite <- app_assoc.
Qed.

Lemma send_message_posts (w : Env) (rid : pyval) (txt : string)
    (qrs : option (list button)) (tr : trace) :
  posts (snd (send_message w rid txt qrs tr)) = posts tr ++ [send_payload rid txt qrs].
Proof.
  rewrite send_message_run.
  destruct (requests_post w tr (send_payload rid txt qrs));
    simpl; now rewrite posts_app.
Qed.

Lemma send_message_sheet_reads (w : Env) (rid : pyval) (txt : string)
    (qrs : option (list button)) (tr : trace) :
  sheet_reads (snd (send_message w rid txt qrs tr)) = sheet_reads tr.
Proof.
  rewrite send_message_run.
  destruct (requests_post w tr (send_payload rid txt qrs));
    simpl; rewrite sheet_reads_app; simpl; lia.
Qed.

Lemma send_message_ok (w : Env) (rid : pyval) (txt : string)
    (qrs : option (list button)) (tr : trace) :
  gateway_answers w -> fst (send_message w rid txt qrs tr) = Ok tt.
Proof.
  intros H. rewrite send_message_run.
  destruct (H tr (send_payload rid txt qrs)) as (st & body & ->). reflexivity.
Qed.

(** [get_user_name] always returns: one request, possibly one log line. *)
Lemma get_user_name_run (w : Env) (sid : pyval) (tr : trace) :
  exists name logs,
    get_user_name w sid tr = (Ok name, tr ++ HttpGet sid :: logs) /\
    posts logs = [] /\ sheet_reads logs = 0 /\
    (lookup_failed (requests_get w tr sid) = true -> name = PStr "there") /\
    (forall v, delivered_name (requests_get w tr sid) = Some v -> name = v).
Proof.
  unfold get_user_name, lookup_failed, delivered_name. run.
  destruct (requests_get w tr sid) as [st json|e]; simpl.
  - destruct (st =? 200)%Z; simpl.
    + destruct json as [body|e]; simpl.
      * destruct body; simpl;
          try (exists (PStr "there"), [Print (LogNameError AttributeError)];
               rewrite <- app_assoc; repeat split; intros; congruence).
        destruct (dict_lookup "first_name" d) as [v|] eqn:E.
        -- exists v, []. repeat split; intros; congruence.
        -- exists (PStr "there"), []. repeat split; intros; congruence.
      * exists (PStr "there"), [Print (LogNameError e)].
        rewrite <- app_assoc; repeat split; intros; congruence.
    + exists (PStr "there"), [].
      repeat split; intros; try congruence.
      destruct json as [[]|]; congruence.
  - exists (PStr "there"), [Print (LogNameError e)].
    rewrite <- app_assoc; repeat split; intros; congruence.
Qed.

(** [find_reply_from_sheet] always returns: an error of the source is
    logged and read as no match. *)
Lemma find_reply_from_sheet_run (w : Env) (txt : string) (tr : trace) :
  find_reply_from_sheet w txt tr =
  match sheet_get_all_values w tr with
  | Ok table => (Ok (scan_rows (PyStr.lower txt) (tl table)), tr ++ [SheetRead])
  | Raise e => (Ok None, tr ++ [SheetRead; Print (LogSheetError e)])
  end.
Proof.
  unfold find_reply_from_sheet, get_sheet_data. run.
  destruct (sheet_get_all_values w tr); simpl; [reflexivity |].
  now rewrite <- app_assoc.
Qed.

Lemma find_reply_from_sheet_total (w : Env) (txt : string) (tr : trace) :
  exists reply logs,
    find_reply_from_sheet w txt tr = (Ok reply, tr ++ logs) /\ posts logs = [].
Proof.
  rewrite find_reply_from_sheet_run.
  destruct (sheet_get_all_values w tr); eexists; eexists; split; reflexivity.
Qed.

(** One step of the row loop, through the decision procedure of the
    specification's notion of a matching row. *)
Lemma scan_rows_cons (txt : string) (row : list string) (rows : list (list string)) :
  scan_rows (PyStr.lower txt) (row :: rows) =
  if row_matchesb txt row
  then Some (PyStr.strip (nth 1 row ""))
  else scan_rows (PyStr.lower txt) rows.
Proof.
  simpl. destruct row as [|k [|r rest]]; try reflexivity. simpl.
  replace (PyStr.truthy (PyStr.lower (PyStr.strip k)))
    with (PyStr.truthy (PyStr.strip k)); [reflexivity |].
  now destruct (PyStr.strip k).
Qed.

Lemma scan_rows_no_match (txt : string) (rows : list (list string)) :
  (forall row, In row rows -> ~ row_matches txt row) ->
  scan_rows (PyStr.lower txt) rows = None.
Proof.
  induction rows as [|row rows IH]; intros H; [reflexivity |].
  rewrite scan_rows_cons.
  destruct (row_matchesb txt row) eqn:E.
  - apply PyStrFacts.row_matchesb_iff in E. exfalso. apply (H row); simpl; auto.
  - apply IH. intros row' Hin. apply H. now right.
Qed.

(** ** The greeting test *)

Module GreetingFacts.
Import PyStr PyStrFacts.

Local Open Scope string_scope.

Lemma keyword_shape (kw : string) :
  In kw GREETING_KEYWORDS -> kw <> "" /\ no_space kw = true /\ lower kw = kw.
Proof.
  unfold GREETING_KEYWORDS. simpl.
  intros H. repeat (destruct H as [<- | H]; [repeat split; discriminate |]).
  contradiction.
Qed.

Lemma lstrip_suffix (s : string) : exists a, s = a ++ lstrip s.
Proof.
  induction s as [|c s [a IH]]; simpl.
  - now exists "".
  - destruct (is_space c); [| now exists ""].
    exists (String c a). simpl. now rewrite <- IH.
Qed.

Lemma rstrip_prefix (s : string) : exists b, s = rstrip s ++ b.
Proof.
  induction s as [|c s [b IH]]; simpl.
  - now exists "".
  - destruct (rstrip s) eqn:E.
    + destruct (is_space c); [now exists (String c s) | now exists s].
    + exists b. simpl in *. congruence.
Qed.

Lemma strip_substring (s : string) : substring (strip s) s.
Proof.
  unfold strip. destruct (rstrip_prefix s) as [b Hb].
  destruct (lstrip_suffix (rstrip s)) as [a Ha].
  exists a, b. rewrite <- append_assoc, <- Ha. exact Hb.
Qed.

Lemma substring_trans (k s t : string) :
  substring k s -> substring s t -> substring k t.
Proof.
  intros (a & b & ->) (x & y & ->).
  exists (x ++ a), (b ++ y). now rewrite !append_assoc.
Qed.

(** The test of [handle_message] decides [is_greeting]. *)
Lemma greeting_test_iff (txt : string) :
  existsb (fun keyword => contains keyword (strip (lower txt))) GREETING_KEYWORDS
  = true <-> is_greeting txt.
Proof.
  rewrite existsb_exists. unfold is_greeting. split.
  - intros (kw & Hin & Hc). exists kw. split; [assumption |].
    destruct (keyword_shape kw Hin) as (_ & _ & Hl).
    apply ci_substring_iff. rewrite Hl.
    apply contains_iff in Hc.
    eapply substring_trans; [exact Hc | apply strip_substring].
  - intros (kw & Hin & Hc). exists kw. split; [assumption |].
    destruct (keyword_shape kw Hin) as (Hne & Hns & Hl).
    apply contains_iff. apply strip_keeps_substring; try assumption.
    rewrite <- Hl. now apply ci_substring_iff.
Qed.

Lemma greeting_test_false (txt : string) :
  ~ is_greeting txt ->
  existsb (fun keyword => contains keyword (strip (lower txt))) GREETING_KEYWORDS
  = false.
Proof.
  intros H. apply not_true_is_false. intros E. apply H.
  now apply greeting_test_iff.
Qed.

End GreetingFacts.

(** ** The text branch *)

Lemma handle_text_greeting (w : Env) (sid : pyval) (txt : string) (tr : trace) :
  is_greeting txt ->
  handle_text w sid (PStr txt) tr
  = send_welcome w sid (tr ++ [Print (LogMsg sid (PStr txt))]).
Proof.
  intros H. apply GreetingFacts.greeting_test_iff in H.
  unfold handle_text, bind, emit, lift, Py.as_str. cbv beta iota. now rewrite H.
Qed.

Lemma handle_text_lookup (w : Env) (sid : pyval) (txt : string) (tr : trace) :
  ~ is_greeting txt ->
  handle_text w sid (PStr txt) tr
  = (sheet_reply <- find_reply_from_sheet w txt ;;
     match sheet_reply with
     | Some (String c r) =>
         send_message w sid (String c r) (Some QUICK_REPLY_BUTTONS)
     | _ => send_message w sid FALLBACK_MESSAGE (Some QUICK_REPLY_BUTTONS)
     end) (tr ++ [Print (LogMsg sid (PStr txt))]).
Proof.
  intros H. apply GreetingFacts.greeting_test_false in H.
  unfold handle_text, bind, emit, lift, Py.as_str. cbv beta iota. now rewrite H.
Qed.

Lemma send_welcome_run (w : Env) (sid : pyval) (tr : trace) :
  exists name logs,
    get_user_name w sid tr = (Ok name, tr ++ HttpGet sid :: logs) /\
    posts logs = [] /\ sheet_reads logs = 0 /\
    send_welcome w sid tr
    = send_message w sid (welcome_text (py_str w name)) (Some QUICK_REPLY_BUTTONS)
        (tr ++ HttpGet sid :: logs).
Proof.
  destruct (get_user_name_run w sid tr) as (name & logs & E & Hp & Hs & _).
  exists name, logs. repeat split; try assumption.
  unfold send_welcome, bind. now rewrite E.
Qed.

(** Whatever the text, the text branch sends exactly one message. *)
Lemma handle_text_one_post (w : Env) (sid : pyval) (txt : string) (tr : trace) :
  exists p, posts (snd (handle_text w sid (PStr txt) tr)) = posts tr ++ [p].
Proof.
  destruct (existsb (fun keyword =>
                       PyStr.contains keyword (PyStr.strip (PyStr.lower txt)))
                    GREETING_KEYWORDS) eqn:G.
  - apply GreetingFacts.greeting_test_iff in G.
    rewrite handle_text_greeting by assumption.
    destruct (send_welcome_run w sid (tr ++ [Print (LogMsg sid (PStr txt))]))
      as (name & logs & _ & Hp & _ & ->).
    eexists. rewrite send_message_posts, !posts_app. simpl. rewrite Hp.
    now rewrite !app_nil_r.
  - assert (H : ~ is_greeting txt).
    { intros H. apply GreetingFacts.greeting_test_iff in H. congruence. }
    rewrite handle_text_lookup by assumption. unfold bind.
    destruct (find_reply_from_sheet_total w txt (tr ++ [Print (LogMsg sid (PStr txt))]))
      as (reply & logs & -> & Hp).
    destruct reply as [[|c r]|]; eexists;
      rewrite send_message_posts, !posts_app; simpl; rewrite Hp;
      now rewrite !app_nil_r.
Qed.

(** With a gateway that answers, the text branch ends normally. *)
Lemma handle_text_ok (w : Env) (sid : pyval) (txt : string) (tr : trace) :
  gateway_answers w -> fst (handle_text w sid (PStr txt) tr) = Ok tt.
Proof.
  intros Hw.
  destruct (existsb (fun keyword =>
                       PyStr.contains keyword (PyStr.strip (PyStr.lower txt)))
                    GREETING_KEYWORDS) eqn:G.
  - apply GreetingFacts.greeting_test_iff in G.
    rewrite handle_text_greeting by assumption.
    destruct (send_welcome_run w sid (tr ++ [Print (LogMsg sid (PStr txt))]))
      as (name & logs & _ & _ & _ & ->).
    now apply send_message_ok.
  - assert (H : ~ is_greeting txt).
    { intros H. apply GreetingFacts.greeting_test_iff in H. congruence. }
    rewrite handle_text_lookup by assumption. unfold bind.
    destruct (find_reply_from_sheet_total w txt (tr ++ [Print (LogMsg sid (PStr txt))]))
      as (reply & logs & -> & _).
    destruct reply as [[|c r]|]; now apply send_message_ok.
Qed.

(** ** The event loop *)

Lemma getitem_contains (v : pyval) (key : string) (x : pyval) :
  Py.getitem v key = Ok x -> Py.contains key v = Ok true.
Proof.
  destruct v; simpl; try discriminate.
  destruct (dict_lookup key d); [reflexivity | discriminate].
Qed.

Lemma getitem_get (v : pyval) (key : string) (x default : pyval) :
  Py.getitem v key = Ok x -> Py.get v key default = Ok x.
Proof.
  destruct v; simpl; try discriminate.
  destruct (dict_lookup key d); [trivial | discriminate].
Qed.

(** What the loop body does on an event of the documented shape. *)
Lemma handle_event_encoded (w : Env) (e : InboundEvent) (tr : trace) :
  handle_event w (encode_event e) tr =
  match message e with
  | None => (Ok tt, tr)
  | Some m =>
      if flagged_echo m then (Ok tt, tr)
      else match quickReplyPayload m with
           | Some code =>
               send_message w (PStr (senderId e)) (payload_reply code)
                            (Some QUICK_REPLY_BUTTONS) tr
           | None =>
               match text m with
               | Some (String c r) =>
                   handle_text w (PStr (senderId e)) (PStr (String c r)) tr
               | _ => (Ok tt, tr)
               end
           end
  end.
Proof.
  destruct e as [sid [[[[|]|] [code|] [[|c r]|]]|]]; reflexivity.
Qed.

Lemma handle_event_encoded_ok (w : Env) (e : InboundEvent) (tr : trace) :
  gateway_answers w -> fst (handle_event w (encode_event e) tr) = Ok tt.
Proof.
  intros Hw. rewrite handle_event_encoded.
  destruct (message e) as [m|]; [| reflexivity].
  destruct (flagged_echo m); [reflexivity |].
  destruct (quickReplyPayload m) as [code|]; [now apply send_message_ok |].
  destruct (text m) as [[|c r]|]; try reflexivity.
  now apply handle_text_ok.
Qed.

Lemma for_each_ok {A : Type} (body : A -> M unit) (xs : list A) :
  (forall x tr, In x xs -> fst (body x tr) = Ok tt) ->
  forall tr, fst (for_each xs body tr) = Ok tt.
Proof.
  induction xs as [|x xs IH]; intros H tr; [reflexivity |].
  simpl. unfold bind.
  pose proof (H x tr (or_introl eq_refl)) as Hx.
  destruct (body x tr) as [[[]|e] tr']; simpl in Hx; [| discriminate].
  apply IH. intros y tr0 Hy. apply H. now right.
Qed.

Lemma no_match_by_test (txt : string) (rows : list (list string)) :
  forallb (fun row => negb (row_matchesb txt row)) rows = true ->
  forall row, In row rows -> ~ row_matches txt row.
Proof.
  intros H row Hin Hm. rewrite forallb_forall in H.
  apply PyStrFacts.row_matchesb_iff in Hm.
  specialize (H row Hin). rewrite Hm in H. discriminate.
Qed.

Lemma not_greeting_by_test (txt : string) :
  existsb (fun keyword => PyStr.contains keyword (PyStr.strip (PyStr.lower txt)))
          GREETING_KEYWORDS = false ->
  ~ is_greeting txt.
Proof.
  intros H G. apply GreetingFacts.greeting_test_iff in G. congruence.
Qed.

(** Every reply carries its text and the four standard buttons. *)
Lemma reply_payload_shape (sid : pyval) (txt : string) :
  exists m,
    Py.getitem (reply_payload sid txt) "message" = Ok m /\
    Py.getitem m "text" = Ok (PStr txt) /\
    Py.getitem m "quick_replies" = Ok (PList (map quick_reply_json QUICK_REPLY_BUTTONS)) /\
    length QUICK_REPLY_BUTTONS = 4.
Proof. eexists. repeat split. Qed.

(* ================================================================== *)
(** * The claims *)
(* ================================================================== *)

(** ** C1: the acknowledgment *)

(** C1, as stated, fails: a delivery whose object discriminator is not
    "page" is answered with status 404 and the text "Not a page event", not
    with the success acknowledgment. *)
Lemma ack_counterexample :
  handle_message world_ok (PDict [("object", PStr "user"); ("entry", PList [])]) []
  = (Ok (Text "Not a page event", 404%Z), []).
Proof. reflexivity. Qed.

(** C1, amended: when the Reply Gateway answers its requests (with any
    status), every page delivery whose entries and sub-events have the
    documented shape is acknowledged with status 200 and [{"status": "ok"}],
    whatever the keyword source and the user directory do; a delivery
    whose discriminator is not "page" is answered 404 without processing. *)
Theorem ack_for_page_deliveries (w : Env) :
  gateway_answers w ->
  (forall entries tr,
      fst (handle_message w (encode_payload entries) tr)
      = Ok (Json (PDict [("status", PStr "ok")]), 200%Z)) /\
  (forall fields object tr,
      Py.get (PDict fields) "object" PNone = Ok object ->
      Py.eq_str object "page" = false ->
      handle_message w (PDict fields) tr = (Ok (Text "Not a page event", 404%Z), tr)).
Proof.
  intros Hw. split.
  - intros entries tr. unfold handle_message, encode_payload, bind, lift, ret.
    cbn.
    match goal with
    | |- context [for_each ?xs ?body tr] =>
        pose proof (@for_each_ok _ body xs) as H
    end.
    lazymatch type of H with
    | ?P -> _ => assert (HP : P)
    end.
    { intros x tr0 Hin. apply in_map_iff in Hin as (events & <- & _).
      cbn. apply for_each_ok. intros ev tr1 Hev.
      apply in_map_iff in Hev as (e & <- & _).
      now apply handle_event_encoded_ok. }
    specialize (H HP tr).
    match goal with
    | |- context [for_each ?xs ?body tr] => destruct (for_each xs body tr) as [[[]|e] tr']
    end; simpl in H; [reflexivity | discriminate].
  - intros fields object tr Hget Hne. unfold handle_message, bind, lift, ret.
    rewrite Hget. cbv beta iota. now rewrite Hne.
Qed.

Lemma ack_for_page_deliveries_witness :
  gateway_answers world_down /\
  fst (handle_message world_down
         (encode_payload [ [text_event "42" "Hi"; tap_event "42" "NOPE"];
                           [text_event "7" "what's your price?";
                            echo_event "7" "hello"] ]) [])
  = Ok (Json (PDict [("status", PStr "ok")]), 200%Z).
Proof.
  assert (H : gateway_answers world_down).
  { intros tr p. exists 400%Z, "{}". reflexivity. }
  split; [exact H |].
  apply (proj1 (ack_for_page_deliveries world_down H)).
Defined.

(** ** C2: a failed send *)

(** C2 fails on the code: [send_message] logs a non-success response, but
    an exception of [requests.post] is not caught.  With an unreachable
    Send API a quick-reply tap ends the view with that exception (Flask
    answers 500) and nothing is logged. *)
Theorem send_fault_escapes :
  send_message world_unreachable (PStr "42") (payload_reply "PRICE")
               (Some QUICK_REPLY_BUTTONS) []
  = (Raise (ExternalError "ConnectionError"),
     [HttpPost (reply_payload (PStr "42") (payload_reply "PRICE"))]) /\
  handle_message world_unreachable (encode_payload [[tap_event "42" "PRICE"]]) []
  = (Raise (ExternalError "ConnectionError"),
     [HttpPost (reply_payload (PStr "42") (payload_reply "PRICE"))]).
Proof. split; reflexivity. Qed.

(** ** C3: the keyword table *)

(** C3, as stated, fails: the table holds the keyword "price" with an empty
    reply cell, the text contains "price" and no greeting keyword, and the
    resolver answers with the fallback message, not with that row's reply. *)
Lemma keyword_reply_counterexample :
  ~ is_greeting "what's your price?" /\
  sheet_get_all_values world_blank_reply
    (received [] (PStr "42") "what's your price?")
  = Ok [ ["Keyword"; "Reply"]; ["price"; ""]; ["pric"; "Second row"] ] /\
  row_matches "what's your price?" ["price"; ""] /\
  posts (snd (handle_text world_blank_reply (PStr "42")
                (PStr "what's your price?") []))
  = [reply_payload (PStr "42") FALLBACK_MESSAGE] /\
  reply_payload (PStr "42") FALLBACK_MESSAGE <> reply_payload (PStr "42") "".
Proof.
  split; [apply not_greeting_by_test; reflexivity |].
  split; [reflexivity |].
  split; [apply PyStrFacts.row_matchesb_iff; reflexivity |].
  split; [reflexivity | discriminate].
Qed.

(** ** C4: the greeting branch *)

(** C4: a text that holds a greeting keyword in any letter case, anywhere,
    is answered by the welcome branch: the text branch is [send_welcome],
    the one message sent is the welcome for the resolved name, and the
    keyword table is not read at all. *)
Theorem greeting_branch_selected (w : Env) (sid : pyval) (txt : string)
    (tr : trace) :
  is_greeting txt ->
  handle_text w sid (PStr txt) tr = send_welcome w sid (received tr sid txt) /\
  (exists name,
      fst (get_user_name w sid (received tr sid txt)) = Ok name /\
      posts (snd (handle_text w sid (PStr txt) tr))
      = posts tr ++ [reply_payload sid (welcome_text (py_str w name))]) /\
  sheet_reads (snd (handle_text w sid (PStr txt) tr)) = sheet_reads tr.
Proof.
  intros Hg. rewrite handle_text_greeting by assumption.
  fold (received tr sid txt). split; [reflexivity |].
  destruct (send_welcome_run w sid (received tr sid txt))
    as (name & logs & E & Hp & Hs & ->).
  split.
  - exists name. rewrite E. split; [reflexivity |].
    rewrite send_message_posts. unfold received.
    rewrite !posts_app. simpl. rewrite Hp. now rewrite !app_nil_r.
  - rewrite send_message_sheet_reads. unfold received.
    rewrite !sheet_reads_app. simpl. rewrite Hs. lia.
Qed.

Lemma greeting_branch_selected_witness :
  is_greeting "HELLO there, what is your price?" /\
  posts (snd (handle_text world_ok (PStr "42")
                (PStr "HELLO there, what is your price?") []))
  = [reply_payload (PStr "42")
       "👋 Hi, Maria! How can we help you today? Choose an option below or type your question:"] /\
  sheet_reads (snd (handle_text world_ok (PStr "42")
                      (PStr "HELLO there, what is your price?") [])) = 0.
Proof.
  assert (Hg : is_greeting "HELLO there, what is your price?").
  { exists "hello". split; [simpl; auto |].
    exists "", "HELLO", " there, what is your price?". split; reflexivity. }
  destruct (greeting_branch_selected world_ok (PStr "42")
              "HELLO there, what is your price?" [] Hg) as (_ & _ & Hs).
  split; [exact Hg |]. split; [reflexivity | exact Hs].
Defined.

(** ** C6: echoes *)

(** C6: an event whose message carries a true echo flag has no effect at
    all; in particular no request goes to the Reply Gateway for it. *)
Theorem echo_never_replies (w : Env) (event msg flag : pyval) (tr : trace) :
  Py.getitem event "message" = Ok msg ->
  Py.get msg "is_echo" PNone = Ok flag ->
  Py.truthy flag = true ->
  snd (handle_event w event tr) = tr /\
  posts (snd (handle_event w event tr)) = posts tr.
Proof.
  intros Hm Hf Ht.
  assert (E : snd (handle_event w event tr) = tr).
  { unfold handle_event, bind, lift, ret.
    destruct (Py.getitem event "sender") as [sender|e]; [| reflexivity].
    destruct (Py.getitem sender "id") as [sid|e]; [| reflexivity].
    rewrite (getitem_contains _ _ _ Hm). cbv beta iota. simpl negb. cbv iota.
    rewrite Hm, Hf, Ht. reflexivity. }
  split; [exact E | now rewrite E].
Qed.

Lemma echo_never_replies_witness :
  snd (handle_event world_ok (encode_event (echo_event "42" "hello")) []) = [] /\
  posts (snd (handle_event world_ok (encode_event (echo_event "42" "hello")) []))
  = [].
Proof.
  apply (echo_never_replies world_ok (encode_event (echo_event "42" "hello"))
           (encode_message {| is_echo := Some true; quickReplyPayload := None;
                              text := Some "hello" |})
           (PBool true) []); reflexivity.
Defined.

(** ** C7: quick-reply taps *)

(** C7: a tap that is not an echo produces exactly one outgoing message:
    the reply of the PayloadReplyTable for its code, that is the fallback
    message when the code has no entry and the configured reply when it has
    one, always with the standard buttons; the lookup raises nothing, and the
    event ends normally whenever the gateway answers. *)
Theorem quick_reply_tap_reply (w : Env) (event sender sid msg flag qr : pyval)
    (code : string) (tr : trace) :
  Py.getitem event "sender" = Ok sender ->
  Py.getitem sender "id" = Ok sid ->
  Py.getitem event "message" = Ok msg ->
  Py.get msg "is_echo" PNone = Ok flag ->
  Py.truthy flag = false ->
  Py.getitem msg "quick_reply" = Ok qr ->
  Py.getitem qr "payload" = Ok (PStr code) ->
  posts (snd (handle_event w event tr))
  = posts tr ++ [reply_payload sid (payload_reply code)] /\
  (dict_lookup code PAYLOAD_REPLIES = None ->
   payload_reply code = FALLBACK_MESSAGE) /\
  (forall reply, dict_lookup code PAYLOAD_REPLIES = Some reply ->
                 payload_reply code = reply) /\
  (exists m,
      Py.getitem (reply_payload sid (payload_reply code)) "message" = Ok m /\
      Py.getitem m "text" = Ok (PStr (payload_reply code)) /\
      Py.getitem m "quick_replies"
      = Ok (PList (map quick_reply_json QUICK_REPLY_BUTTONS))) /\
  (gateway_answers w -> fst (handle_event w event tr) = Ok tt).
Proof.
  intros Hs Hi Hm Hf Ht Hq Hp.
  assert (E : handle_event w event tr
              = send_message w sid (payload_reply code)
                  (Some QUICK_REPLY_BUTTONS) tr).
  { unfold handle_event, bind, lift, ret.
    rewrite Hs, Hi, (getitem_contains _ _ _ Hm). cbv beta iota. simpl negb. cbv iota.
    rewrite Hm, Hf, Ht, (getitem_contains _ _ _ Hq). cbv beta iota.
    rewrite Hq, Hp. reflexivity. }
  repeat split.
  - rewrite E. apply send_message_posts.
  - unfold payload_reply. now intros ->.
  - unfold payload_reply. now intros reply ->.
  - destruct (reply_payload_shape sid (payload_reply code)) as (m & H1 & H2 & H3 & _).
    now exists m.
  - intros Hw. rewrite E. now apply send_message_ok.
Qed.

Lemma quick_reply_tap_reply_witness :
  posts (snd (handle_event world_down (encode_event (tap_event "42" "REFUND")) []))
  = [reply_payload (PStr "42") FALLBACK_MESSAGE] /\
  posts (snd (handle_event world_down (encode_event (tap_event "42" "HOURS")) []))
  = [reply_payload (PStr "42")
       "🕐 We're open Monday to Friday, 9:00 AM – 6:00 PM."].
Proof.
  split.
  - apply (quick_reply_tap_reply world_down
             (encode_event (tap_event "42" "REFUND"))
             (PDict [("id", PStr "42")]) (PStr "42")
             (encode_message {| is_echo := None; quickReplyPayload := Some "REFUND";
                                text := None |})
             PNone (PDict [("payload", PStr "REFUND")]) "REFUND" []);
      reflexivity.
  - apply (quick_reply_tap_reply world_down
             (encode_event (tap_event "42" "HOURS"))
             (PDict [("id", PStr "42")]) (PStr "42")
             (encode_message {| is_echo := None; quickReplyPayload := Some "HOURS";
                                text := None |})
             PNone (PDict [("payload", PStr "HOURS")]) "HOURS" []);
      reflexivity.
Defined.

(** ** C8: the display name *)

(** C8, as stated, fails: a profile answered with status 200 and an empty
    [first_name] resolves to the empty string. *)
Lemma display_name_counterexample :
  requests_get world_blank_name [] (PStr "42")
  = GetResponse 200 (Ok (PDict [("first_name", PStr "")])) /\
  fst (get_user_name world_blank_name (PStr "42") []) = Ok (PStr "").
Proof. split; reflexivity. Qed.

(** C8, amended: the resolution never raises and sends nothing itself; a
    response of status 200 whose body is an object with a [first_name] field
    resolves to that field's value as it is; every failure (network error,
    non-success status, a body that is not a JSON object, a missing field)
    resolves to "there", and the welcome then sent is the one that greets
    "there". *)
Theorem display_name_resolution (w : Env) (sid : pyval) (tr : trace) :
  exists name logs,
    get_user_name w sid tr = (Ok name, tr ++ HttpGet sid :: logs) /\
    posts logs = [] /\
    (forall v, delivered_name (requests_get w tr sid) = Some v -> name = v) /\
    (lookup_failed (requests_get w tr sid) = true ->
     name = PStr "there" /\
     posts (snd (send_welcome w sid tr))
     = posts tr ++ [reply_payload sid (welcome_text "there")] /\
     substring "there" (welcome_text "there")).
Proof.
  destruct (get_user_name_run w sid tr) as (name & logs & E & Hp & Hs & Hf & Hd).
  exists name, logs. repeat split; try assumption.
  - now apply Hf.
  - unfold send_welcome, bind. rewrite E, (Hf H).
    rewrite send_message_posts, posts_app. simpl. rewrite Hp.
    now rewrite app_nil_r.
  - now exists "👋 Hi, ",
      "! How can we help you today? Choose an option below or type your question:".
Qed.

Lemma display_name_resolution_witness :
  fst (get_user_name world_down (PStr "42") []) = Ok (PStr "there") /\
  posts (snd (send_welcome world_down (PStr "42") []))
  = [reply_payload (PStr "42") (welcome_text "there")].
Proof.
  destruct (display_name_resolution world_down (PStr "42") [])
    as (name & logs & E & _ & _ & Hf).
  destruct (Hf eq_refl) as (Hn & Hp & _).
  split; [rewrite E, Hn; reflexivity | exact Hp].
Defined.

(** Every outcome of the lookup is a failure or delivers a name. *)
Lemma lookup_failed_or_delivered (o : get_outcome) :
  lookup_failed o = true \/ exists v, delivered_name o = Some v.
Proof.
  destruct o as [st [[]|]|]; simpl; auto;
    destruct (st =? 200)%Z; auto.
  destruct (dict_lookup "first_name" d) as [v|]; [right; now exists v | now left].
Qed.

(** ** C9: one reply per qualifying event *)

(** C9: an event of the documented shape adds exactly one request to the
    Reply Gateway when it qualifies (a message that is no echo and carries a
    quick-reply payload or a non-empty text) and none otherwise. *)
Theorem one_reply_per_qualifying_event (w : Env) (e : InboundEvent) (tr : trace) :
  exists replies,
    posts (snd (handle_event w (encode_event e) tr)) = posts tr ++ replies /\
    length replies = if qualifying e then 1 else 0.
Proof.
  rewrite handle_event_encoded. unfold qualifying, carries_payload, carries_text.
  destruct (message e) as [m|]; [| exists []; now rewrite app_nil_r].
  destruct (flagged_echo m); [exists []; now rewrite app_nil_r |].
  destruct (quickReplyPayload m) as [code|].
  - eexists. rewrite send_message_posts. split; reflexivity.
  - destruct (text m) as [[|c r]|]; try (exists []; now rewrite app_nil_r).
    destruct (handle_text_one_post w (PStr (senderId e)) (String c r) tr) as [p ->].
    now exists [p].
Qed.

(* ================================================================== *)
(** * Further properties of the code *)
(* ================================================================== *)

(** ** The verification handshake *)

Lemma py_opt_eqb_iff (a b : option string) : py_opt_eqb a b = true <-> a = b.
Proof.
  destruct a as [x|], b as [y|]; simpl; try (split; congruence).
  rewrite String.eqb_eq. split; congruence.
Qed.

(** X1: the handshake is accepted exactly when the mode parameter is
    "subscribe" and the token parameter equals [VERIFY_TOKEN]: then the
    challenge is returned with status 200; in every other case the answer is
    "Forbidden" with status 403 and never the challenge. *)
Theorem verify_webhook_decision (VERIFY_TOKEN : option string)
    (args : list (string * string)) :
  (dict_lookup "hub.mode" args = Some "subscribe" /\
   dict_lookup "hub.verify_token" args = VERIFY_TOKEN ->
   verify_webhook VERIFY_TOKEN args
   = (LogVerified, (dict_lookup "hub.challenge" args, 200%Z))) /\
  (~ (dict_lookup "hub.mode" args = Some "subscribe" /\
      dict_lookup "hub.verify_token" args = VERIFY_TOKEN) ->
   verify_webhook VERIFY_TOKEN args
   = (LogVerificationFailed, (Some "Forbidden", 403%Z))).
Proof.
  unfold verify_webhook. split.
  - intros [Hm Ht].
    apply py_opt_eqb_iff in Hm. apply py_opt_eqb_iff in Ht.
    now rewrite Hm, Ht.
  - intros H.
    destruct (py_opt_eqb (dict_lookup "hub.mode" args) (Some "subscribe")) eqn:Em;
      [| reflexivity].
    destruct (py_opt_eqb (dict_lookup "hub.verify_token" args) VERIFY_TOKEN) eqn:Et;
      [| reflexivity].
    exfalso. apply H. split; now apply py_opt_eqb_iff.
Qed.

Lemma verify_webhook_decision_witness :
  verify_webhook (Some "s3cret")
    [("hub.mode", "subscribe"); ("hub.verify_token", "s3cret");
     ("hub.challenge", "1158201444")]
  = (LogVerified, (Some "1158201444", 200%Z)) /\
  verify_webhook (Some "s3cret")
    [("hub.mode", "subscribe"); ("hub.verify_token", "guess");
     ("hub.challenge", "1158201444")]
  = (LogVerificationFailed, (Some "Forbidden", 403%Z)).
Proof.
  split.
  - apply (proj1 (verify_webhook_decision (Some "s3cret")
                    [("hub.mode", "subscribe"); ("hub.verify_token", "s3cret");
                     ("hub.challenge", "1158201444")])).
    split; reflexivity.
  - apply (proj2 (verify_webhook_decision (Some "s3cret")
                    [("hub.mode", "subscribe"); ("hub.verify_token", "guess");
                     ("hub.challenge", "1158201444")])).
    intros [_ H]. discriminate H.
Defined.

(** X2: when [VERIFY_TOKEN] is not set, a subscribe request that carries no
    token parameter at all is accepted ([None == None]), while every request
    that does carry a token is refused. *)
Theorem verify_webhook_unset_token (args : list (string * string)) :
  dict_lookup "hub.mode" args = Some "subscribe" ->
  snd (snd (verify_webhook None args))
  = match dict_lookup "hub.verify_token" args with
    | None => 200%Z
    | Some _ => 403%Z
    end.
Proof.
  intros Hm. unfold verify_webhook. rewrite Hm.
  now destruct (dict_lookup "hub.verify_token" args).
Qed.

Lemma verify_webhook_unset_token_witness :
  snd (snd (verify_webhook None [("hub.challenge", "7"); ("hub.mode", "subscribe")]))
  = 200%Z.
Proof.
  apply (verify_webhook_unset_token [("hub.challenge", "7"); ("hub.mode", "subscribe")]).
  reflexivity.
Defined.

(** ** The body of a send *)

Lemma decode_buttons_encode (qrs : list button) :
  decode_buttons (map quick_reply_json qrs) = Some qrs.
Proof.
  induction qrs as [|[t p] qrs IH]; [reflexivity |].
  simpl map. simpl decode_buttons. rewrite IH. reflexivity.
Qed.

(** X3: the one request [send_message] makes carries the recipient id and
    the text unchanged, and the buttons it was given, in order, each as a
    "text" quick reply; when no buttons or an empty list are given the
    message has no [quick_replies] key at all. *)
Theorem send_message_body_round_trip (w : Env) (rid : pyval) (txt : string)
    (qrs : option (list button)) (tr : trace) :
  exists body,
    posts (snd (send_message w rid txt qrs tr)) = posts tr ++ [body] /\
    sent_recipient body = Some rid /\
    sent_text body = Some txt /\
    Py.getitem body "messaging_type" = Ok (PStr "RESPONSE") /\
    match qrs with
    | Some (qr :: rest) => sent_quick_replies body = Some (qr :: rest)
    | _ => exists m, Py.getitem body "message" = Ok m /\
                     Py.contains "quick_replies" m = Ok false
    end.
Proof.
  exists (send_payload rid txt qrs).
  split; [apply send_message_posts |].
  repeat split.
  destruct qrs as [[|qr rest]|].
  - eexists. split; reflexivity.
  - unfold sent_quick_replies, send_payload.
    cbn [Py.getitem dict_lookup String.eqb Ascii.eqb Bool.eqb].
    cbn -[decode_buttons map]. apply decode_buttons_encode.
  - eexists. split; reflexivity.
Qed.

(** X4: a response of the Send API, whatever its status, ends
    [send_message] normally after exactly one request and one printed line:
    the error line with the status and the response text when the status is
    not 200, the success line otherwise. *)
Theorem send_message_response_logged (w : Env) (rid : pyval) (txt : string)
    (qrs : option (list button)) (tr : trace) (status_code : Z) (answer : string) :
  requests_post w tr (send_payload rid txt qrs) = PostResponse status_code answer ->
  send_message w rid txt qrs tr
  = (Ok tt,
     tr ++ [HttpPost (send_payload rid txt qrs);
            Print (if (status_code =? 200)%Z
                   then LogSendOk rid txt
                   else LogSendFailed status_code answer)]).
Proof.
  intros H. rewrite send_message_run, H. reflexivity.
Qed.

Lemma send_message_response_logged_witness :
  send_message world_down (PStr "42") "hello" None []
  = (Ok tt,
     [HttpPost (send_payload (PStr "42") "hello" None);
      Print (LogSendFailed 400 "{}")]).
Proof.
  apply (send_message_response_logged world_down (PStr "42") "hello" None []
           400%Z "{}").
  reflexivity.
Defined.

(** ** The profile lookup *)

(** X5: the profile lookup makes exactly one request.  A response whose
    status is not 200 resolves to "there" silently, its body is never read;
    an exception of the request resolves to "there" and is printed. *)
Theorem get_user_name_failures (w : Env) (sid : pyval) (tr : trace) :
  (forall status_code json,
      requests_get w tr sid = GetResponse status_code json ->
      status_code <> 200%Z ->
      get_user_name w sid tr = (Ok (PStr "there"), tr ++ [HttpGet sid])) /\
  (forall e,
      requests_get w tr sid = GetRaises e ->
      get_user_name w sid tr
      = (Ok (PStr "there"), tr ++ [HttpGet sid; Print (LogNameError e)])) /\
  gets (snd (get_user_name w sid tr)) = gets tr + 1.
Proof.
  assert (Hg : forall l1 l2, gets (l1 ++ l2) = gets l1 + gets l2).
  { induction l1 as [|x l1 IH]; intros l2; simpl; [reflexivity |].
    destruct x; simpl; now rewrite IH. }
  repeat split.
  - intros st json H Hne. unfold get_user_name. run. rewrite H. simpl.
    apply Z.eqb_neq in Hne. now rewrite Hne.
  - intros e H. unfold get_user_name. run. rewrite H. simpl.
    now rewrite <- app_assoc.
  - unfold get_user_name. run.
    destruct (requests_get w tr sid) as [st [body|e]|e]; simpl;
      try destruct (st =? 200)%Z; simpl; try destruct body; simpl;
      rewrite ?Hg; simpl; lia.
Qed.

Lemma get_user_name_failures_witness :
  get_user_name world_down (PStr "42") []
  = (Ok (PStr "there"),
     [HttpGet (PStr "42"); Print (LogNameError (ExternalError "ConnectionError"))]).
Proof.
  apply (proj1 (proj2 (get_user_name_failures world_down (PStr "42") []))
           (ExternalError "ConnectionError")).
  reflexivity.
Defined.

(** ** More about stripping *)

Module StripFacts.
Import PyStr PyStrFacts GreetingFacts.

Local Open Scope string_scope.

Lemma is_space_lower (c : ascii) : is_space (lower_ascii c) = is_space c.
Proof. destruct c as [[] [] [] [] [] [] [] []]; reflexivity. Qed.

Lemma lstrip_lower (s : string) : lstrip (lower s) = lower (lstrip s).
Proof.
  induction s as [|c s IH]; [reflexivity |].
  simpl. rewrite is_space_lower. now destruct (is_space c).
Qed.

Lemma rstrip_lower (s : string) : rstrip (lower s) = lower (rstrip s).
Proof.
  induction s as [|c s IH]; [reflexivity |].
  simpl. rewrite IH, is_space_lower.
  destruct (rstrip s); simpl; [now destruct (is_space c) | reflexivity].
Qed.

(** Lower-casing and stripping commute. *)
Lemma strip_lower (s : string) : strip (lower s) = lower (strip s).
Proof. unfold strip. now rewrite rstrip_lower, lstrip_lower. Qed.

Lemma lstrip_head (s : string) (c : ascii) (r : string) :
  lstrip s = String c r -> is_space c = false.
Proof.
  induction s as [|x s IH]; simpl; [discriminate |].
  destruct (is_space x) eqn:E; [exact IH |].
  intros H. injection H as <- _. exact E.
Qed.

Lemma lstrip_idem (s : string) : lstrip (lstrip s) = lstrip s.
Proof.
  destruct (lstrip s) as [|c r] eqn:E; [reflexivity |].
  simpl. now rewrite (lstrip_head s c r E).
Qed.

Lemma rstrip_app (x y : string) :
  rstrip (x ++ y) = match rstrip y with
                    | "" => rstrip x
                    | String c r => x ++ String c r
                    end.
Proof.
  induction x as [|a x IH]; simpl.
  - now destruct (rstrip y).
  - rewrite IH. destruct (rstrip y) as [|c r]; [reflexivity |].
    now destruct x.
Qed.

Lemma rstrip_nil_iff (s : string) : rstrip s = "" <-> all_space s = true.
Proof.
  induction s as [|c s IH]; simpl; [tauto |].
  rewrite andb_true_iff, <- IH.
  destruct (rstrip s); destruct (is_space c); split;
    try tauto; try discriminate; intros [? ?]; discriminate.
Qed.

Lemma rstrip_idem (s : string) : rstrip (rstrip s) = rstrip s.
Proof.
  induction s as [|c s IH]; [reflexivity |].
  simpl. destruct (rstrip s) as [|a r] eqn:E.
  - destruct (is_space c) eqn:Ec; [reflexivity |]. simpl. now rewrite Ec.
  - change (rstrip (String c (String a r))) with
      (match rstrip (String a r) with
       | "" => if is_space c then "" else String c ""
       | String x y => String c (String x y)
       end).
    now rewrite IH.
Qed.

Lemma length_rstrip (s : string) : String.length (rstrip s) <= String.length s.
Proof.
  induction s as [|c s IH]; simpl; [lia |].
  destruct (rstrip s); [destruct (is_space c) |]; simpl in *; lia.
Qed.

Lemma length_app (a b : string) :
  String.length (a ++ b) = String.length a + String.length b.
Proof. induction a as [|c a IH]; simpl; [reflexivity | now rewrite IH]. Qed.

Lemma append_inj_l (a x y : string) : a ++ x = a ++ y -> x = y.
Proof.
  induction a as [|c a IH]; simpl; [trivial |].
  intros H. injection H as H. now apply IH.
Qed.

(** A suffix of a string without trailing blanks has none either. *)
Lemma rstrip_fixed_suffix (a y : string) :
  rstrip (a ++ y) = a ++ y -> rstrip y = y.
Proof.
  rewrite rstrip_app. destruct (rstrip y) as [|c r] eqn:E.
  - intros H. pose proof (length_rstrip a) as L.
    rewrite H, length_app in L. destruct y; [reflexivity | simpl in L; lia].
  - intros H. apply append_inj_l in H. congruence.
Qed.

(** What [strip] returns has no blank at either end. *)
Lemma strip_trimmed (s : string) :
  lstrip (strip s) = strip s /\ rstrip (strip s) = strip s.
Proof.
  unfold strip. split; [apply lstrip_idem |].
  destruct (lstrip_suffix (rstrip s)) as [a Ha].
  apply (rstrip_fixed_suffix a). rewrite <- Ha. apply rstrip_idem.
Qed.

(** Stripping a text keeps every occurrence of a non-empty word that has
    no blank at either end. *)
Lemma strip_keeps_trimmed (kw s : string) :
  kw <> "" -> lstrip kw = kw -> rstrip kw = kw ->
  substring kw s -> substring kw (strip s).
Proof.
  intros Hne Hl Hr (a & b & ->). unfold strip.
  destruct kw as [|c kw]; [contradiction |].
  pose proof (lstrip_head _ _ _ Hl) as Hc.
  assert (E : rstrip (String c kw ++ b) = String c kw ++ rstrip b).
  { rewrite rstrip_app. destruct (rstrip b); [| reflexivity].
    rewrite Hr. now rewrite append_nil_r. }
  rewrite rstrip_app_nonempty by (rewrite E; discriminate).
  rewrite E.
  change (String c kw ++ rstrip b) with (String c (kw ++ rstrip b)).
  destruct (lstrip_keeps a c (kw ++ rstrip b) Hc) as [a' ->].
  now exists a', (rstrip b).
Qed.

Lemma contains_strip (kw s : string) :
  kw <> "" -> lstrip kw = kw -> rstrip kw = kw ->
  contains kw (strip s) = contains kw s.
Proof.
  intros Hne Hl Hr. apply eq_true_iff_eq. rewrite !contains_iff. split.
  - intros H. eapply substring_trans; [exact H | apply strip_substring].
  - now apply strip_keeps_trimmed.
Qed.

(** A row matches a text exactly when it matches the stripped text. *)
Lemma row_matchesb_strip (txt : string) (row : list string) :
  row_matchesb (strip txt) row = row_matchesb txt row.
Proof.
  destruct row as [|k [|r rest]]; try reflexivity. unfold row_matchesb.
  destruct (truthy (strip k)) eqn:T; [| reflexivity].
  rewrite !andb_true_l, <- (strip_lower txt), <- (strip_lower k).
  destruct (strip_trimmed (lower k)) as [Hl Hr].
  apply contains_strip; try assumption.
  rewrite strip_lower. apply truthy_iff in T.
  intros H. apply T. now apply (proj1 (lower_eq_nil (strip k))).
Qed.

Lemma strip_all_space (s : string) : all_space s = true -> strip s = "".
Proof.
  intros H. unfold strip. apply rstrip_nil_iff in H. now rewrite H.
Qed.

End StripFacts.

(** ** The keyword lookup *)

Lemma scan_rows_ext (txt txt' : string) (rows : list (list string)) :
  (forall row, row_matchesb txt row = row_matchesb txt' row) ->
  scan_rows (PyStr.lower txt) rows = scan_rows (PyStr.lower txt') rows.
Proof.
  intros H. induction rows as [|row rows IH]; [reflexivity |].
  now rewrite !scan_rows_cons, H, IH.
Qed.

Lemma row_matchesb_blank (txt : string) (row : list string) :
  all_space txt = true -> row_matchesb txt row = false.
Proof.
  intros H. rewrite <- StripFacts.row_matchesb_strip.
  rewrite (StripFacts.strip_all_space txt H).
  destruct row as [|k [|r rest]]; try reflexivity. simpl.
  now destruct (PyStr.strip k).
Qed.

(** X7: the first row of the sheet is a header and never a keyword: a sheet
    with no row at all or with the header row only gives no reply, without
    any error, whatever the text and whatever the header holds. *)
Theorem lookup_header_only (w : Env) (txt : string) (tr : trace)
    (table : list (list string)) :
  sheet_get_all_values w tr = Ok table ->
  length table <= 1 ->
  find_reply_from_sheet w txt tr = (Ok None, tr ++ [SheetRead]).
Proof.
  intros Hs Hl. rewrite find_reply_from_sheet_run, Hs.
  destruct table as [|header [|row rows]]; try reflexivity.
  simpl in Hl. lia.
Qed.

Lemma lookup_header_only_witness :
  find_reply_from_sheet
    {| requests_post := requests_post world_ok;
       requests_get := requests_get world_ok;
       sheet_get_all_values := fun _ => Ok [["price"; "Reply"]];
       str_compound := str_compound world_ok |}
    "price" []
  = (Ok None, [SheetRead]).
Proof.
  apply (lookup_header_only
           {| requests_post := requests_post world_ok;
              requests_get := requests_get world_ok;
              sheet_get_all_values := fun _ => Ok [["price"; "Reply"]];
              str_compound := str_compound world_ok |}
           "price" [] [["price"; "Reply"]]).
  - reflexivity.
  - simpl. lia.
Defined.

(** X8: the lookup sees a text only up to letter case and surrounding
    blanks: two texts with the same stripped lower-case form get the same
    answer.  So passing the untrimmed text, as [handle_message] does, gives
    what the trimmed text would give. *)
Theorem lookup_ignores_case_and_blanks (w : Env) (txt txt' : string) (tr : trace) :
  PyStr.lower (PyStr.strip txt) = PyStr.lower (PyStr.strip txt') ->
  find_reply_from_sheet w txt tr = find_reply_from_sheet w txt' tr.
Proof.
  intros H. rewrite !find_reply_from_sheet_run.
  destruct (sheet_get_all_values w tr) as [table|e]; [| reflexivity].
  rewrite (scan_rows_ext txt txt'); [reflexivity |].
  intros row.
  rewrite <- (StripFacts.row_matchesb_strip txt), <- (StripFacts.row_matchesb_strip txt').
  destruct row as [|k [|r rest]]; try reflexivity.
  unfold row_matchesb. now rewrite H.
Qed.

Lemma lookup_ignores_case_and_blanks_witness :
  find_reply_from_sheet world_ok "  Refund please " []
  = find_reply_from_sheet world_ok "REFUND PLEASE" [].
Proof.
  apply (lookup_ignores_case_and_blanks world_ok "  Refund please " "REFUND PLEASE" []).
  reflexivity.
Defined.

(** X9: a text made of white space only is answered with the fallback
    message, whatever the table holds and whatever the collaborators do. *)
Theorem blank_text_gets_fallback (w : Env) (sid : pyval) (txt : string) (tr : trace) :
  all_space txt = true ->
  posts (snd (handle_text w sid (PStr txt) tr))
  = posts tr ++ [reply_payload sid FALLBACK_MESSAGE].
Proof.
  intros H.
  assert (Hg : ~ is_greeting txt).
  { apply not_greeting_by_test.
    rewrite StripFacts.strip_lower, (StripFacts.strip_all_space txt H). reflexivity. }
  rewrite handle_text_lookup by assumption. unfold bind.
  rewrite find_reply_from_sheet_run.
  destruct (sheet_get_all_values w (tr ++ [Print (LogMsg sid (PStr txt))]))
    as [table|e].
  - rewrite scan_rows_no_match.
    + rewrite send_message_posts, !posts_app. simpl. now rewrite !app_nil_r.
    + intros row _ Hm. apply PyStrFacts.row_matchesb_iff in Hm.
      rewrite row_matchesb_blank in Hm by assumption. discriminate.
  - rewrite send_message_posts, !posts_app. simpl. now rewrite !app_nil_r.
Qed.

Lemma blank_text_gets_fallback_witness :
  posts (snd (handle_text world_ok (PStr "42") (PStr "   ") []))
  = [reply_payload (PStr "42") FALLBACK_MESSAGE].
Proof.
  apply (blank_text_gets_fallback world_ok (PStr "42") "   " []).
  reflexivity.
Defined.

(** ** Events *)

Lemma gets_app (tr1 tr2 : trace) : gets (tr1 ++ tr2) = gets tr1 + gets tr2.
Proof.
  induction tr1 as [|e tr1 IH]; simpl; [reflexivity |].
  destruct e; simpl; now rewrite IH.
Qed.

Lemma send_message_gets (w : Env) (rid : pyval) (txt : string)
    (qrs : option (list button)) (tr : trace) :
  gets (snd (send_message w rid txt qrs tr)) = gets tr.
Proof.
  rewrite send_message_run.
  destruct (requests_post w tr (send_payload rid txt qrs));
    simpl; rewrite gets_app; simpl; lia.
Qed.

(** X10: every button the bot offers has its reply: for each entry of
    [QUICK_REPLY_BUTTONS] the payload is a key of [PAYLOAD_REPLIES], so a
    tap on an offered button is answered with its configured reply and never
    with the fallback; and each title fits the 20 characters the platform
    shows, even counted in bytes. *)
Theorem offered_buttons_have_replies (w : Env) (sid : string) (b : button)
    (tr : trace) :
  In b QUICK_REPLY_BUTTONS ->
  exists reply,
    dict_lookup (payload b) PAYLOAD_REPLIES = Some reply /\
    reply <> FALLBACK_MESSAGE /\
    posts (snd (handle_event w (encode_event (tap_event sid (payload b))) tr))
    = posts tr ++ [reply_payload (PStr sid) reply] /\
    String.length (title b) <= 20.
Proof.
  intros H. unfold QUICK_REPLY_BUTTONS in H. simpl in H.
  repeat (destruct H as [<- | H];
          [eexists; split; [reflexivity |]; split; [discriminate |];
           split; [rewrite handle_event_encoded; simpl; rewrite send_message_posts;
                   reflexivity
                  | simpl; lia] |]).
  contradiction.
Qed.

Lemma offered_buttons_have_replies_witness :
  exists reply,
    dict_lookup "LOCATION" PAYLOAD_REPLIES = Some reply /\
    reply <> FALLBACK_MESSAGE /\
    posts (snd (handle_event world_ok (encode_event (tap_event "42" "LOCATION")) []))
    = [reply_payload (PStr "42") reply] /\
    String.length "📍 Location" <= 20.
Proof.
  apply (offered_buttons_have_replies world_ok "42"
           {| title := "📍 Location"; payload := "LOCATION" |} []).
  simpl. auto.
Defined.

(** X11: a tap wins over text: when an event carries a quick-reply payload,
    its text is never classified, whatever it is: the event is answered like
    the bare tap, without profile lookup and without reading the sheet. *)
Theorem tap_wins_over_text (w : Env) (e : InboundEvent) (m : Message)
    (code : string) (tr : trace) :
  message e = Some m ->
  flagged_echo m = false ->
  quickReplyPayload m = Some code ->
  handle_event w (encode_event e) tr
  = handle_event w (encode_event (tap_event (senderId e) code)) tr /\
  gets (snd (handle_event w (encode_event e) tr)) = gets tr /\
  sheet_reads (snd (handle_event w (encode_event e) tr)) = sheet_reads tr.
Proof.
  intros Hm He Hq. rewrite !handle_event_encoded, Hm, He, Hq. simpl.
  split; [reflexivity |].
  split; [apply send_message_gets | apply send_message_sheet_reads].
Qed.

Lemma tap_wins_over_text_witness :
  handle_event world_ok
    (encode_event {| senderId := "42";
                     message := Some {| is_echo := Some false;
                                        quickReplyPayload := Some "HOURS";
                                        text := Some "hello, your price?" |} |}) []
  = handle_event world_ok (encode_event (tap_event "42" "HOURS")) [].
Proof.
  apply (tap_wins_over_text world_ok
           {| senderId := "42";
              message := Some {| is_echo := Some false;
                                 quickReplyPayload := Some "HOURS";
                                 text := Some "hello, your price?" |} |}
           {| is_echo := Some false; quickReplyPayload := Some "HOURS";
              text := Some "hello, your price?" |} "HOURS" []);
    reflexivity.
Defined.

(** X12: a message whose [text] is a true value that is not a string (a
    number, a list, ...) is printed and then raises [AttributeError] at
    [.lower()]: nothing is sent and the view ends with the exception. *)
Theorem text_not_a_string_raises (w : Env) (event sender sid msg flag v : pyval)
    (tr : trace) :
  Py.getitem event "sender" = Ok sender ->
  Py.getitem sender "id" = Ok sid ->
  Py.getitem event "message" = Ok msg ->
  Py.get msg "is_echo" PNone = Ok flag ->
  Py.truthy flag = false ->
  Py.contains "quick_reply" msg = Ok false ->
  Py.get msg "text" PNone = Ok v ->
  Py.truthy v = true ->
  is_str v = false ->
  handle_event w event tr = (Raise AttributeError, tr ++ [Print (LogMsg sid v)]).
Proof.
  intros Hs Hi Hm Hf Ht Hq Hv Hvt Hstr.
  unfold handle_event, bind, lift, ret.
  rewrite Hs, Hi, (getitem_contains _ _ _ Hm). cbv beta iota. simpl negb. cbv iota.
  rewrite Hm, Hf, Ht, Hq. cbv beta iota. rewrite Hv, Hvt. simpl negb. cbv iota.
  unfold handle_text, bind, emit, lift. cbv beta iota.
  destruct v; try discriminate; reflexivity.
Qed.

Lemma text_not_a_string_raises_witness :
  handle_event world_ok
    (PDict [("sender", PDict [("id", PStr "42")]);
            ("message", PDict [("text", PInt 5)])]) []
  = (Raise AttributeError, [Print (LogMsg (PStr "42") (PInt 5))]).
Proof.
  apply (text_not_a_string_raises world_ok
           (PDict [("sender", PDict [("id", PStr "42")]);
                   ("message", PDict [("text", PInt 5)])])
           (PDict [("id", PStr "42")]) (PStr "42")
           (PDict [("text", PInt 5)]) PNone (PInt 5) []);
    reflexivity.
Defined.

(** X13: a tap whose payload is not a string: a list or a dict cannot be
    a dictionary key and raises [TypeError] before anything is sent; any
    other value (a number, [null], a boolean) is no key of [PAYLOAD_REPLIES]
    and is answered with the fallback message. *)
Theorem payload_not_a_string (w : Env) (event sender sid msg flag qr v : pyval)
    (tr : trace) :
  Py.getitem event "sender" = Ok sender ->
  Py.getitem sender "id" = Ok sid ->
  Py.getitem event "message" = Ok msg ->
  Py.get msg "is_echo" PNone = Ok flag ->
  Py.truthy flag = false ->
  Py.getitem msg "quick_reply" = Ok qr ->
  Py.getitem qr "payload" = Ok v ->
  is_str v = false ->
  handle_event w event tr
  = if unhashable v then (Raise TypeError, tr)
    else send_message w sid FALLBACK_MESSAGE (Some QUICK_REPLY_BUTTONS) tr.
Proof.
  intros Hs Hi Hm Hf Ht Hq Hp Hstr.
  unfold handle_event, bind, lift, ret.
  rewrite Hs, Hi, (getitem_contains _ _ _ Hm). cbv beta iota. simpl negb. cbv iota.
  rewrite Hm, Hf, Ht, (getitem_contains _ _ _ Hq). cbv beta iota.
  rewrite Hq, Hp. destruct v; try discriminate; reflexivity.
Qed.

Lemma payload_not_a_string_witness :
  handle_event world_ok
    (PDict [("sender", PDict [("id", PStr "42")]);
            ("message", PDict [("quick_reply", PDict [("payload", PList [])])])]) []
  = (Raise TypeError, []) /\
  posts (snd (handle_event world_ok
    (PDict [("sender", PDict [("id", PStr "42")]);
            ("message", PDict [("quick_reply", PDict [("payload", PInt 7)])])]) []))
  = [reply_payload (PStr "42") FALLBACK_MESSAGE].
Proof.
  split.
  - apply (payload_not_a_string world_ok
             (PDict [("sender", PDict [("id", PStr "42")]);
                     ("message", PDict [("quick_reply", PDict [("payload", PList [])])])])
             (PDict [("id", PStr "42")]) (PStr "42")
             (PDict [("quick_reply", PDict [("payload", PList [])])]) PNone
             (PDict [("payload", PList [])]) (PList []) []);
      reflexivity.
  - rewrite (payload_not_a_string world_ok
             (PDict [("sender", PDict [("id", PStr "42")]);
                     ("message", PDict [("quick_reply", PDict [("payload", PInt 7)])])])
             (PDict [("id", PStr "42")]) (PStr "42")
             (PDict [("quick_reply", PDict [("payload", PInt 7)])]) PNone
             (PDict [("payload", PInt 7)]) (PInt 7) []);
      reflexivity.
Defined.

(** ** Deliveries *)

Lemma for_each_app {A : Type} (body : A -> M unit) (xs ys : list A) (tr : trace) :
  for_each (xs ++ ys) body tr
  = match for_each xs body tr with
    | (Ok _, tr') => for_each ys body tr'
    | (Raise e, tr') => (Raise e, tr')
    end.
Proof.
  revert tr. induction xs as [|x xs IH]; intros tr; [reflexivity |].
  simpl. unfold bind. destruct (body x tr) as [[[]|e] tr']; [apply IH | reflexivity].
Qed.

(** The loop over the sub-events of one entry, as [handle_message] runs it. *)
Lemma handle_message_page (w : Env) (entries : list pyval) (tr : trace) :
  handle_message w (page entries) tr
  = match for_each entries
            (fun entry =>
               events <- lift (Py.get entry "messaging" (PList [])) ;;
               events <- lift (Py.iter events) ;;
               for_each events (handle_event w)) tr with
    | (Ok _, tr') => (Ok acknowledgment, tr')
    | (Raise e, tr') => (Raise e, tr')
    end.
Proof.
  unfold handle_message, page, bind, lift, ret. cbn.
  match goal with
  | |- context [for_each ?xs ?body tr] => destruct (for_each xs body tr) as [[[]|e] tr']
  end; reflexivity.
Qed.

Lemma handle_message_one_entry (w : Env) (events : list pyval) (tr : trace) :
  handle_message w (page [entry_of events]) tr
  = match for_each events (handle_event w) tr with
    | (Ok _, tr') => (Ok acknowledgment, tr')
    | (Raise e, tr') => (Raise e, tr')
    end.
Proof.
  rewrite handle_message_page. unfold entry_of. simpl for_each.
  unfold bind, lift, ret. simpl.
  destruct (for_each events (handle_event w) tr) as [[[]|e] tr']; reflexivity.
Qed.

Lemma events_run_ok (w : Env) (evs : list InboundEvent) (tr : trace) :
  gateway_answers w ->
  for_each (map encode_event evs) (handle_event w) tr
  = (Ok tt, snd (for_each (map encode_event evs) (handle_event w) tr)).
Proof.
  intros Hw.
  assert (H : fst (for_each (map encode_event evs) (handle_event w) tr) = Ok tt).
  { apply for_each_ok. intros x tr0 Hin.
    apply in_map_iff in Hin as (e & <- & _). now apply handle_event_encoded_ok. }
  destruct (for_each (map encode_event evs) (handle_event w) tr) as [r tr'].
  simpl in *. now rewrite H.
Qed.

(** X14: an event without [sender] aborts the delivery: the events before
    it are processed as usual, the event raises [KeyError] even when it has
    no message body, the events after it are never looked at (whatever they
    are), and no acknowledgment is returned. *)
Theorem malformed_event_aborts_delivery (w : Env) (good : list InboundEvent)
    (bad : pyval) (rest : list pyval) (e : exn) (tr : trace) :
  gateway_answers w ->
  Py.getitem bad "sender" = Raise e ->
  handle_message w (page [entry_of (map encode_event good ++ bad :: rest)]) tr
  = (Raise e, snd (handle_message w (encode_payload [good]) tr)).
Proof.
  intros Hw Hb.
  change (encode_payload [good]) with (page [entry_of (map encode_event good)]).
  rewrite !handle_message_one_entry, for_each_app.
  rewrite (events_run_ok w good tr Hw).
  simpl for_each. unfold bind at 1. unfold handle_event at 1.
  unfold bind at 1. unfold lift at 1. rewrite Hb. reflexivity.
Qed.

Lemma malformed_event_aborts_delivery_witness :
  handle_message world_ok
    (page [entry_of (map encode_event [tap_event "42" "HOURS"]
                     ++ PDict [("message", PDict [("text", PStr "hi")])]
                        :: [encode_event (tap_event "42" "PRICE")])]) []
  = (Raise (KeyError "sender"),
     snd (handle_message world_ok (encode_payload [[tap_event "42" "HOURS"]]) [])).
Proof.
  apply (malformed_event_aborts_delivery world_ok [tap_event "42" "HOURS"]
           (PDict [("message", PDict [("text", PStr "hi")])])
           [encode_event (tap_event "42" "PRICE")] (KeyError "sender") []).
  - intros tr p. exists 200%Z, "{}". reflexivity.
  - reflexivity.
Defined.

(** X15: missing keys of the envelope are read as empty: a page delivery
    without [entry], and a delivery whose entries have no [messaging], are
    acknowledged with status 200 and have no effect. *)
Theorem empty_delivery_acknowledged (w : Env) (tr : trace) :
  (forall fields,
      dict_lookup "object" fields = Some (PStr "page") ->
      dict_lookup "entry" fields = None ->
      handle_message w (PDict fields) tr = (Ok acknowledgment, tr)) /\
  (forall entries,
      (forall entry, In entry entries ->
                     exists d, entry = PDict d /\ dict_lookup "messaging" d = None) ->
      handle_message w (page entries) tr = (Ok acknowledgment, tr)).
Proof.
  split.
  - intros fields Ho He. unfold handle_message, bind, lift, ret. simpl Py.get.
    rewrite Ho. simpl. rewrite He. reflexivity.
  - intros entries H. rewrite handle_message_page.
    assert (E : for_each entries
                  (fun entry =>
                     events <- lift (Py.get entry "messaging" (PList [])) ;;
                     events <- lift (Py.iter events) ;;
                     for_each events (handle_event w)) tr = (Ok tt, tr)).
    { induction entries as [|x entries IH]; [reflexivity |].
      simpl for_each. unfold bind at 1.
      destruct (H x (or_introl eq_refl)) as (d & -> & Hd).
      unfold bind, lift. simpl Py.get. rewrite Hd. simpl.
      apply IH. intros y Hy. apply H. now right. }
    now rewrite E.
Qed.

Lemma empty_delivery_acknowledged_witness :
  handle_message world_ok (PDict [("object", PStr "page")]) []
  = (Ok acknowledgment, []) /\
  handle_message world_ok (page [PDict [("id", PStr "1"); ("time", PInt 5)]]) []
  = (Ok acknowledgment, []).
Proof.
  split.
  - apply (proj1 (empty_delivery_acknowledged world_ok [])); reflexivity.
  - apply (proj2 (empty_delivery_acknowledged world_ok [])).
    intros entry [<- | []]. eexists. split; reflexivity.
Defined.

Lemma handle_message_flat (w : Env) (entries : list (list InboundEvent)) (tr : trace) :
  handle_message w (encode_payload entries) tr
  = match for_each (map encode_event (concat entries)) (handle_event w) tr with
    | (Ok _, tr') => (Ok acknowledgment, tr')
    | (Raise e, tr') => (Raise e, tr')
    end.
Proof.
  change (encode_payload entries)
    with (page (map (fun events => entry_of (map encode_event events)) entries)).
  rewrite handle_message_page.
  match goal with
  | |- match ?a with _ => _ end = match ?b with _ => _ end =>
      assert (E : a = b); [| now rewrite E]
  end.
  revert tr. induction entries as [|evs entries IH]; intros tr; [reflexivity |].
  simpl concat. rewrite map_app, for_each_app. simpl map. simpl for_each.
  unfold bind at 1. unfold entry_of at 1. unfold bind at 1. unfold lift at 1.
  simpl Py.get. cbv beta iota. unfold bind at 1. unfold lift at 1.
  simpl Py.iter. cbv beta iota.
  destruct (for_each (map encode_event evs) (handle_event w) tr) as [[[]|e] tr'];
    [apply IH | reflexivity].
Qed.

(** X16: the grouping into entries does not matter: a delivery is processed
    as the one sequence of its sub-events, entry after entry, in the order
    given. *)
Theorem delivery_is_flat_sequence (w : Env) (entries : list (list InboundEvent))
    (tr : trace) :
  handle_message w (encode_payload entries) tr
  = handle_message w (encode_payload [concat entries]) tr.
Proof.
  rewrite !handle_message_flat. simpl concat. now rewrite app_nil_r.
Qed.

Lemma handle_event_encoded_posts (w : Env) (e : InboundEvent) (tr : trace) :
  length (posts (snd (handle_event w (encode_event e) tr)))
  = length (posts tr) + (if qualifying e then 1 else 0).
Proof.
  rewrite handle_event_encoded. unfold qualifying, carries_payload, carries_text.
  destruct (message e) as [m|]; [| simpl; lia].
  destruct (flagged_echo m); [simpl; lia |].
  destruct (quickReplyPayload m) as [code|].
  - rewrite send_message_posts, length_app. reflexivity.
  - destruct (text m) as [[|c r]|]; try (simpl; lia).
    destruct (handle_text_one_post w (PStr (senderId e)) (String c r) tr) as [p ->].
    rewrite length_app. reflexivity.
Qed.

Lemma events_posts_count (w : Env) (evs : list InboundEvent) (tr : trace) :
  gateway_answers w ->
  length (posts (snd (for_each (map encode_event evs) (handle_event w) tr)))
  = length (posts tr) + length (filter qualifying evs).
Proof.
  intros Hw. revert tr. induction evs as [|e evs IH]; intros tr; [simpl; lia |].
  simpl map. simpl for_each. unfold bind.
  pose proof (handle_event_encoded_ok w e tr Hw) as Hok.
  pose proof (handle_event_encoded_posts w e tr) as Hp.
  destruct (handle_event w (encode_event e) tr) as [[[]|x] tr']; simpl in *;
    [| discriminate].
  rewrite IH, Hp. destruct (qualifying e); simpl; lia.
Qed.

(** X17: when the Reply Gateway answers, a delivery makes as many requests
    to it as it has qualifying sub-events, no more and no fewer, and is
    acknowledged. *)
Theorem delivery_posts_count (w : Env) (entries : list (list InboundEvent))
    (tr : trace) :
  gateway_answers w ->
  fst (handle_message w (encode_payload entries) tr) = Ok acknowledgment /\
  length (posts (snd (handle_message w (encode_payload entries) tr)))
  = length (posts tr) + length (filter qualifying (concat entries)).
Proof.
  intros Hw. rewrite handle_message_flat.
  pose proof (events_posts_count w (concat entries) tr Hw) as Hc.
  rewrite (events_run_ok w (concat entries) tr Hw) in *. simpl in *.
  split; [reflexivity | exact Hc].
Qed.

Lemma delivery_posts_count_witness :
  length (posts (snd (handle_message world_down
    (encode_payload [ [text_event "42" "Hi"; echo_event "42" "Hi"];
                      [tap_event "7" "HOURS"; text_event "7" ""] ]) [])))
  = 2.
Proof.
  assert (H : gateway_answers world_down).
  { intros tr p. exists 400%Z, "{}". reflexivity. }
  exact (proj2 (delivery_posts_count world_down
                  [ [text_event "42" "Hi"; echo_event "42" "Hi"];
                    [tap_event "7" "HOURS"; text_event "7" ""] ] [] H)).
Defined.

(** X18: taps are answered in the order of the delivery: when the gateway
    answers, a delivery of taps posts exactly the replies of their payload
    codes, one per tap, in the same order, each to its sender. *)
Theorem taps_answered_in_order (w : Env) (taps : list (string * string))
    (tr : trace) :
  gateway_answers w ->
  posts (snd (handle_message w
                (encode_payload [map (fun t => tap_event (fst t) (snd t)) taps]) tr))
  = posts tr
    ++ map (fun t => reply_payload (PStr (fst t)) (payload_reply (snd t))) taps.
Proof.
  intros Hw. rewrite handle_message_flat. simpl concat. rewrite app_nil_r.
  assert (E : forall tr0,
             posts (snd (for_each
                           (map encode_event
                                (map (fun t => tap_event (fst t) (snd t)) taps))
                           (handle_event w) tr0))
             = posts tr0
               ++ map (fun t => reply_payload (PStr (fst t)) (payload_reply (snd t)))
                      taps).
  { induction taps as [|[sid code] taps IH]; intros tr0;
      [simpl; now rewrite app_nil_r |].
    simpl map. simpl for_each. unfold bind.
    pose proof (handle_event_encoded_ok w (tap_event sid code) tr0 Hw) as Hok.
    assert (Hp : posts (snd (handle_event w (encode_event (tap_event sid code)) tr0))
                 = posts tr0 ++ [reply_payload (PStr sid) (payload_reply code)]).
    { rewrite handle_event_encoded. simpl. apply send_message_posts. }
    destruct (handle_event w (encode_event (tap_event sid code)) tr0)
      as [[[]|x] tr']; simpl in *; [| discriminate].
    rewrite IH, Hp, <- app_assoc. reflexivity. }
  specialize (E tr).
  destruct (for_each
              (map encode_event (map (fun t => tap_event (fst t) (snd t)) taps))
              (handle_event w) tr) as [[[]|x] tr']; exact E.
Qed.

Lemma taps_answered_in_order_witness :
  posts (snd (handle_message world_ok
                (encode_payload [[tap_event "7" "HOURS"; tap_event "42" "NOPE";
                                  tap_event "7" "PRICE"]]) []))
  = [ reply_payload (PStr "7") (payload_reply "HOURS");
      reply_payload (PStr "42") FALLBACK_MESSAGE;
      reply_payload (PStr "7") (payload_reply "PRICE") ].
Proof.
  apply (taps_answered_in_order world_ok
           [("7", "HOURS"); ("42", "NOPE"); ("7", "PRICE")] []).
  intros tr p. exists 200%Z, "{}". reflexivity.
Defined.

Lemma send_message_raises (w : Env) (rid : pyval) (txt : string)
    (qrs : option (list button)) (tr : trace) :
  gateway_unreachable w -> exists e, fst (send_message w rid txt qrs tr) = Raise e.
Proof.
  intros H. rewrite send_message_run.
  destruct (H tr (send_payload rid txt qrs)) as [e ->]. now exists e.
Qed.

Lemma handle_text_raises (w : Env) (sid : pyval) (txt : string) (tr : trace) :
  gateway_unreachable w -> exists e, fst (handle_text w sid (PStr txt) tr) = Raise e.
Proof.
  intros Hw. destruct (greeting_test txt) eqn:G; unfold greeting_test in G.
  - apply GreetingFacts.greeting_test_iff in G.
    rewrite handle_text_greeting by assumption.
    destruct (send_welcome_run w sid (tr ++ [Print (LogMsg sid (PStr txt))]))
      as (name & logs & _ & _ & _ & ->).
    now apply send_message_raises.
  - apply not_greeting_by_test in G.
    rewrite handle_text_lookup by assumption. unfold bind.
    destruct (find_reply_from_sheet_total w txt (tr ++ [Print (LogMsg sid (PStr txt))]))
      as (reply & logs & -> & _).
    destruct reply as [[|c r]|]; now apply send_message_raises.
Qed.

Lemma handle_event_encoded_raises (w : Env) (e : InboundEvent) (tr : trace) :
  gateway_unreachable w ->
  if qualifying e
  then exists x, fst (handle_event w (encode_event e) tr) = Raise x
  else handle_event w (encode_event e) tr = (Ok tt, tr).
Proof.
  intros Hw. rewrite handle_event_encoded.
  unfold qualifying, carries_payload, carries_text.
  destruct (message e) as [m|]; [| reflexivity].
  destruct (flagged_echo m); [reflexivity |].
  destruct (quickReplyPayload m) as [code|]; [now apply send_message_raises |].
  destruct (text m) as [[|c r]|]; try reflexivity.
  now apply handle_text_raises.
Qed.

Lemma events_unreachable (w : Env) (evs : list InboundEvent) (tr : trace) :
  gateway_unreachable w ->
  if existsb qualifying evs
  then exists x tr',
      for_each (map encode_event evs) (handle_event w) tr = (Raise x, tr') /\
      length (posts tr') = length (posts tr) + 1
  else for_each (map encode_event evs) (handle_event w) tr = (Ok tt, tr).
Proof.
  intros Hw. induction evs as [|e evs IH]; [reflexivity |].
  simpl existsb. simpl map. simpl for_each. unfold bind.
  pose proof (handle_event_encoded_raises w e tr Hw) as He.
  pose proof (handle_event_encoded_posts w e tr) as Hp.
  destruct (qualifying e); simpl orb.
  - destruct He as [x Hx].
    destruct (handle_event w (encode_event e) tr) as [[[]|y] tr']; simpl in *;
      [discriminate |].
    exists y, tr'. split; [reflexivity | exact Hp].
  - rewrite He. exact IH.
Qed.

(** X19: when the Reply Gateway cannot be reached, a delivery stops at its
    first qualifying sub-event: that one request is attempted, the view ends
    with the exception instead of the acknowledgment, and the later
    sub-events get no reply at all; a delivery without qualifying sub-event
    is acknowledged and has no effect. *)
Theorem unreachable_gateway_stops_delivery (w : Env)
    (entries : list (list InboundEvent)) (tr : trace) :
  gateway_unreachable w ->
  if existsb qualifying (concat entries)
  then exists x tr',
      handle_message w (encode_payload entries) tr = (Raise x, tr') /\
      length (posts tr') = length (posts tr) + 1
  else handle_message w (encode_payload entries) tr = (Ok acknowledgment, tr).
Proof.
  intros Hw. rewrite handle_message_flat.
  pose proof (events_unreachable w (concat entries) tr Hw) as H.
  destruct (existsb qualifying (concat entries)).
  - destruct H as (x & tr' & -> & Hl). now exists x, tr'.
  - now rewrite H.
Qed.

Lemma unreachable_gateway_stops_delivery_witness :
  exists x tr',
    handle_message world_unreachable
      (encode_payload [ [echo_event "42" "Hi"; text_event "42" "price?"];
                        [tap_event "7" "HOURS"] ]) []
    = (Raise x, tr') /\
    length (posts tr') = 1.
Proof.
  assert (H : gateway_unreachable world_unreachable).
  { intros tr p. now exists (ExternalError "ConnectionError"). }
  exact (unreachable_gateway_stops_delivery world_unreachable
           [ [echo_event "42" "Hi"; text_event "42" "price?"];
             [tap_event "7" "HOURS"] ] [] H).
Defined.

(** ** Which collaborator an event consults *)

Lemma get_user_name_trace (w : Env) (sid : pyval) (tr : trace) :
  exists name logs,
    get_user_name w sid tr = (Ok name, tr ++ HttpGet sid :: logs) /\
    gets logs = 0 /\ sheet_reads logs = 0.
Proof.
  unfold get_user_name. run.
  destruct (requests_get w tr sid) as [st json|e]; simpl.
  - destruct (st =? 200)%Z; simpl.
    + destruct json as [body|e]; simpl.
      * destruct body; simpl;
          try (exists (PStr "there"), [Print (LogNameError AttributeError)];
               rewrite <- app_assoc; repeat split).
        eexists; exists []; repeat split.
      * exists (PStr "there"), [Print (LogNameError e)].
        rewrite <- app_assoc; repeat split.
    + exists (PStr "there"), []. repeat split.
  - exists (PStr "there"), [Print (LogNameError e)].
    rewrite <- app_assoc; repeat split.
Qed.

(** ** Rows the lookup passes over *)

(** X21: rows with fewer than two cells and rows whose keyword cell is
    blank never answer, and cells after the second are never read: deleting
    such rows from the table, or cutting every row to its first two cells,
    changes no answer of the row loop. *)
Theorem lookup_skips_unusable_rows (user_message_lower : string)
    (rows : list (list string)) :
  scan_rows user_message_lower (filter usable rows)
  = scan_rows user_message_lower rows /\
  scan_rows user_message_lower (map (firstn 2) rows)
  = scan_rows user_message_lower rows.
Proof.
  split; induction rows as [|row rows IH]; try reflexivity.
  - destruct row as [|k [|r rest]]; simpl; try exact IH.
    destruct (PyStr.strip k) as [|c k'] eqn:E; simpl.
    + exact IH.
    + rewrite E. simpl. now rewrite IH.
  - rewrite map_cons. destruct row as [|k [|r rest]].
    + cbn [firstn scan_rows]. exact IH.
    + cbn [firstn scan_rows]. exact IH.
    + change (firstn 2 (k :: r :: rest)) with [k; r].
      cbn [scan_rows]. now rewrite IH.
Qed.

(* ================================================================== *)
(** * The text path over Python's own string methods *)
(* ================================================================== *)

(** The functions outside the module are the instance at the ASCII
    methods. *)
Lemma unicode_at_ascii :
  Unicode.scan_rows PyStr.lower PyStr.strip = scan_rows /\
  Unicode.find_reply_from_sheet PyStr.lower PyStr.strip = find_reply_from_sheet /\
  Unicode.handle_text PyStr.lower PyStr.strip = handle_text /\
  Unicode.handle_event PyStr.lower PyStr.strip = handle_event /\
  Unicode.handle_message PyStr.lower PyStr.strip = handle_message.
Proof. repeat split. Qed.

Section AnyStrMethods.

Variable str_lower : string -> string.
Variable str_strip : string -> string.

(** ** The row loop and the greeting test *)

Lemma u_row_matchesb_iff (txt : string) (row : list string) :
  Unicode.row_matchesb str_lower str_strip txt row = true
  <-> Unicode.row_matches str_lower str_strip txt row.
Proof.
  unfold Unicode.row_matchesb, Unicode.row_matches. split.
  - destruct row as [|k [|r rest]]; try discriminate.
    rewrite andb_true_iff, PyStrFacts.truthy_iff, PyStrFacts.contains_iff.
    intros [H1 H2]. now exists k, r, rest.
  - intros (k & r & rest & -> & H1 & H2).
    rewrite andb_true_iff, PyStrFacts.truthy_iff, PyStrFacts.contains_iff.
    now split.
Qed.

Lemma u_scan_rows_cons (txt : string) (row : list string)
    (rows : list (list string)) :
  Unicode.scan_rows str_lower str_strip (str_lower txt) (row :: rows) =
  if Unicode.row_matchesb str_lower str_strip txt row
  then Some (str_strip (nth 1 row ""))
  else Unicode.scan_rows str_lower str_strip (str_lower txt) rows.
Proof. destruct row as [|k [|r rest]]; reflexivity. Qed.

Lemma u_scan_rows_no_match (txt : string) (rows : list (list string)) :
  (forall row, In row rows -> ~ Unicode.row_matches str_lower str_strip txt row) ->
  Unicode.scan_rows str_lower str_strip (str_lower txt) rows = None.
Proof.
  induction rows as [|row rows IH]; intros H; [reflexivity |].
  rewrite u_scan_rows_cons.
  destruct (Unicode.row_matchesb str_lower str_strip txt row) eqn:E.
  - apply u_row_matchesb_iff in E. exfalso. apply (H row); simpl; auto.
  - apply IH. intros row' Hin. apply H. now right.
Qed.

Lemma u_scan_rows_first_match (txt : string) (pre post : list (list string))
    (k r : string) (rest : list string) :
  (forall row, In row pre -> ~ Unicode.row_matches str_lower str_strip txt row) ->
  Unicode.row_matches str_lower str_strip txt (k :: r :: rest) ->
  Unicode.scan_rows str_lower str_strip (str_lower txt)
    (pre ++ (k :: r :: rest) :: post) = Some (str_strip r).
Proof.
  intros Hpre Hrow. induction pre as [|row pre IH].
  - simpl app. rewrite u_scan_rows_cons.
    apply u_row_matchesb_iff in Hrow. now rewrite Hrow.
  - simpl app. rewrite u_scan_rows_cons.
    destruct (Unicode.row_matchesb str_lower str_strip txt row) eqn:E.
    + apply u_row_matchesb_iff in E. exfalso. apply (Hpre row); simpl; auto.
    + apply IH. intros row' Hin. apply Hpre. now right.
Qed.

Lemma u_scan_rows_sound (txt : string) (rows : list (list string))
    (reply : string) :
  Unicode.scan_rows str_lower str_strip (str_lower txt) rows = Some reply ->
  exists pre k r rest post,
    rows = pre ++ (k :: r :: rest) :: post /\
    (forall row, In row pre -> ~ Unicode.row_matches str_lower str_strip txt row) /\
    Unicode.row_matches str_lower str_strip txt (k :: r :: rest) /\
    reply = str_strip r.
Proof.
  induction rows as [|row rows IH]; [discriminate |].
  rewrite u_scan_rows_cons.
  destruct (Unicode.row_matchesb str_lower str_strip txt row) eqn:E.
  - intros H. injection H as <-.
    apply u_row_matchesb_iff in E.
    destruct E as (k & r & rest & -> & E).
    exists [], k, r, rest, rows. repeat split; try tauto.
    now exists k, r, rest.
  - intros H. destruct (IH H) as (pre & k & r & rest & post & -> & Hpre & Hrow & ->).
    exists (row :: pre), k, r, rest, post. repeat split; try assumption.
    intros row' [<- | Hin]; [| now apply Hpre].
    intros Hm. apply u_row_matchesb_iff in Hm. congruence.
Qed.

Lemma u_find_reply_from_sheet_run (w : Env) (txt : string) (tr : trace) :
  Unicode.find_reply_from_sheet str_lower str_strip w txt tr =
  match sheet_get_all_values w tr with
  | Ok table =>
      (Ok (Unicode.scan_rows str_lower str_strip (str_lower txt) (tl table)),
       tr ++ [SheetRead])
  | Raise e => (Ok None, tr ++ [SheetRead; Print (LogSheetError e)])
  end.
Proof.
  unfold Unicode.find_reply_from_sheet, get_sheet_data. run.
  destruct (sheet_get_all_values w tr); simpl; [reflexivity |].
  now rewrite <- app_assoc.
Qed.

Lemma u_greeting_test_iff (txt : string) :
  Unicode.greeting_test str_lower str_strip txt = true
  <-> Unicode.greets str_lower str_strip txt.
Proof.
  unfold Unicode.greeting_test, Unicode.greets. rewrite existsb_exists.
  split; intros (kw & Hin & H); exists kw; split; try assumption;
    now apply PyStrFacts.contains_iff.
Qed.

Lemma u_not_greets_iff (txt : string) :
  Unicode.greeting_test str_lower str_strip txt = false
  <-> ~ Unicode.greets str_lower str_strip txt.
Proof.
  rewrite <- u_greeting_test_iff.
  destruct (Unicode.greeting_test str_lower str_strip txt); split; congruence.
Qed.

Lemma u_no_match_by_test (txt : string) (rows : list (list string)) :
  forallb (fun row => negb (Unicode.row_matchesb str_lower str_strip txt row)) rows
  = true ->
  forall row, In row rows -> ~ Unicode.row_matches str_lower str_strip txt row.
Proof.
  intros H row Hin Hm. rewrite forallb_forall in H.
  apply u_row_matchesb_iff in Hm.
  specialize (H row Hin). rewrite Hm in H. discriminate.
Qed.

(** The text branch, by the outcome of the greeting test. *)
Lemma u_handle_text_run (w : Env) (sid : pyval) (txt : string) (tr : trace) :
  Unicode.handle_text str_lower str_strip w sid (PStr txt) tr
  = if Unicode.greeting_test str_lower str_strip txt
    then send_welcome w sid (received tr sid txt)
    else (sheet_reply <- Unicode.find_reply_from_sheet str_lower str_strip w txt ;;
          match sheet_reply with
          | Some (String c r) =>
              send_message w sid (String c r) (Some QUICK_REPLY_BUTTONS)
          | _ => send_message w sid FALLBACK_MESSAGE (Some QUICK_REPLY_BUTTONS)
          end) (received tr sid txt).
Proof.
  unfold Unicode.handle_text, Unicode.greeting_test, received, bind, emit, lift,
    Py.as_str.
  cbv beta iota.
  now destruct (existsb
                  (fun keyword =>
                     PyStr.contains keyword (str_strip (str_lower txt)))
                  GREETING_KEYWORDS).
Qed.

Lemma u_handle_event_encoded (w : Env) (e : InboundEvent) (tr : trace) :
  Unicode.handle_event str_lower str_strip w (encode_event e) tr =
  match message e with
  | None => (Ok tt, tr)
  | Some m =>
      if flagged_echo m then (Ok tt, tr)
      else match quickReplyPayload m with
           | Some code =>
               send_message w (PStr (senderId e)) (payload_reply code)
                            (Some QUICK_REPLY_BUTTONS) tr
           | None =>
               match text m with
               | Some (String c r) =>
                   Unicode.handle_text str_lower str_strip w
                     (PStr (senderId e)) (PStr (String c r)) tr
               | _ => (Ok tt, tr)
               end
           end
  end.
Proof.
  destruct e as [sid [[[[|]|] [code|] [[|c r]|]]|]]; reflexivity.
Qed.

(** ** C3: the keyword table *)

(** C3, amended: for a text that holds no greeting keyword, when the table
    is read and some data row (header row excluded) has a keyword cell and a
    reply cell and its keyword, trimmed and lower-cased, is not empty and
    occurs in the lower-cased text, the sheet lookup returns the reply cell,
    trimmed, of the first such row in source order, and the dispatcher sends
    exactly that reply, with the buttons, when it is not empty.  Trimming
    and lower-casing are Python's own, whatever they do to a text. *)
Theorem keyword_reply_first_match (w : Env) (sid : pyval) (txt : string)
    (tr : trace) (table pre post : list (list string)) (k r : string)
    (rest : list string) :
  ~ Unicode.greets str_lower str_strip txt ->
  sheet_get_all_values w (received tr sid txt) = Ok table ->
  tl table = pre ++ (k :: r :: rest) :: post ->
  (forall row, In row pre -> ~ Unicode.row_matches str_lower str_strip txt row) ->
  Unicode.row_matches str_lower str_strip txt (k :: r :: rest) ->
  Unicode.find_reply_from_sheet str_lower str_strip w txt (received tr sid txt)
  = (Ok (Some (str_strip r)), received tr sid txt ++ [SheetRead]) /\
  (str_strip r <> "" ->
   posts (snd (Unicode.handle_text str_lower str_strip w sid (PStr txt) tr))
   = posts tr ++ [reply_payload sid (str_strip r)]).
Proof.
  intros Hg Hs Ht Hpre Hrow.
  assert (E : Unicode.find_reply_from_sheet str_lower str_strip w txt
                (received tr sid txt)
              = (Ok (Some (str_strip r)), received tr sid txt ++ [SheetRead])).
  { rewrite u_find_reply_from_sheet_run, Hs, Ht.
    now rewrite u_scan_rows_first_match. }
  split; [exact E |].
  intros Hne. rewrite u_handle_text_run.
  apply u_not_greets_iff in Hg. rewrite Hg.
  unfold bind. rewrite E.
  destruct (str_strip r) as [|c r']; [contradiction |].
  rewrite send_message_posts. unfold received.
  rewrite !posts_app. simpl. now rewrite !app_nil_r.
Qed.

(** ** C5: the fallback *)

(** C5: a text that, lower-cased and trimmed, holds no greeting keyword and
    that matches no data row of the keyword table, or meets a keyword source
    that raises, is answered with the fallback message: the lookup returns
    [None] and the one message sent is the fallback with the buttons. *)
Theorem fallback_when_nothing_matches (w : Env) (sid : pyval) (txt : string)
    (tr : trace) :
  ~ Unicode.greets str_lower str_strip txt ->
  Unicode.no_keyword_reply str_lower str_strip
    (sheet_get_all_values w (received tr sid txt)) txt ->
  fst (Unicode.find_reply_from_sheet str_lower str_strip w txt
         (received tr sid txt)) = Ok None /\
  posts (snd (Unicode.handle_text str_lower str_strip w sid (PStr txt) tr))
  = posts tr ++ [reply_payload sid FALLBACK_MESSAGE].
Proof.
  intros Hg Hn. rewrite u_handle_text_run.
  apply u_not_greets_iff in Hg. rewrite Hg.
  unfold bind. rewrite u_find_reply_from_sheet_run.
  unfold Unicode.no_keyword_reply in Hn.
  destruct (sheet_get_all_values w (received tr sid txt)) as [table|e].
  - rewrite u_scan_rows_no_match by assumption. split; [reflexivity |].
    rewrite send_message_posts. unfold received.
    rewrite !posts_app. simpl. now rewrite !app_nil_r.
  - split; [reflexivity |].
    rewrite send_message_posts. unfold received.
    rewrite !posts_app. simpl. now rewrite !app_nil_r.
Qed.

(** ** C10: a matching row without reply *)

(** C10: when the first data row that matches a text without greeting
    keyword has a reply cell that is empty or trims to nothing, the lookup
    returns the empty string and the dispatcher sends the fallback
    message. *)
Theorem blank_reply_falls_back (w : Env) (sid : pyval) (txt : string)
    (tr : trace) (table pre post : list (list string)) (k r : string)
    (rest : list string) :
  ~ Unicode.greets str_lower str_strip txt ->
  sheet_get_all_values w (received tr sid txt) = Ok table ->
  tl table = pre ++ (k :: r :: rest) :: post ->
  (forall row, In row pre -> ~ Unicode.row_matches str_lower str_strip txt row) ->
  Unicode.row_matches str_lower str_strip txt (k :: r :: rest) ->
  str_strip r = "" ->
  fst (Unicode.find_reply_from_sheet str_lower str_strip w txt
         (received tr sid txt)) = Ok (Some "") /\
  posts (snd (Unicode.handle_text str_lower str_strip w sid (PStr txt) tr))
  = posts tr ++ [reply_payload sid FALLBACK_MESSAGE].
Proof.
  intros Hg Hs Ht Hpre Hrow Hr.
  assert (E : Unicode.find_reply_from_sheet str_lower str_strip w txt
                (received tr sid txt)
              = (Ok (Some ""), received tr sid txt ++ [SheetRead])).
  { rewrite u_find_reply_from_sheet_run, Hs, Ht.
    now rewrite u_scan_rows_first_match, Hr. }
  split; [now rewrite E |].
  rewrite u_handle_text_run.
  apply u_not_greets_iff in Hg. rewrite Hg.
  unfold bind. rewrite E.
  rewrite send_message_posts. unfold received.
  rewrite !posts_app. simpl. now rewrite !app_nil_r.
Qed.

(** ** Further properties of the lookup and of the text branch *)

(** X6: the lookup never invents a reply: whenever it returns one, the
    table was read and the reply is the reply cell, trimmed, of a data row
    that matches the text, and no data row before it matches. *)
Theorem lookup_reply_comes_from_first_match (w : Env) (txt : string)
    (tr tr' : trace) (reply : string) :
  Unicode.find_reply_from_sheet str_lower str_strip w txt tr
  = (Ok (Some reply), tr') ->
  exists table pre k r rest post,
    sheet_get_all_values w tr = Ok table /\
    tl table = pre ++ (k :: r :: rest) :: post /\
    (forall row, In row pre -> ~ Unicode.row_matches str_lower str_strip txt row) /\
    Unicode.row_matches str_lower str_strip txt (k :: r :: rest) /\
    reply = str_strip r.
Proof.
  rewrite u_find_reply_from_sheet_run.
  destruct (sheet_get_all_values w tr) as [table|e]; [| discriminate].
  intros H. injection H as H _.
  destruct (u_scan_rows_sound txt (tl table) reply H)
    as (pre & k & r & rest & post & E & Hpre & Hrow & ->).
  now exists table, pre, k, r, rest, post.
Qed.

Lemma u_handle_text_consults (w : Env) (sid : pyval) (txt : string) (tr : trace) :
  gets (snd (Unicode.handle_text str_lower str_strip w sid (PStr txt) tr))
  = gets tr + (if Unicode.greeting_test str_lower str_strip txt then 1 else 0) /\
  sheet_reads (snd (Unicode.handle_text str_lower str_strip w sid (PStr txt) tr))
  = sheet_reads tr
    + (if Unicode.greeting_test str_lower str_strip txt then 0 else 1).
Proof.
  rewrite u_handle_text_run. unfold received.
  destruct (Unicode.greeting_test str_lower str_strip txt).
  - unfold send_welcome, bind.
    destruct (get_user_name_trace w sid (tr ++ [Print (LogMsg sid (PStr txt))]))
      as (name & logs & -> & Hg & Hs).
    rewrite send_message_gets, send_message_sheet_reads.
    rewrite !gets_app, !sheet_reads_app. simpl. rewrite Hg, Hs. lia.
  - unfold bind. rewrite u_find_reply_from_sheet_run.
    destruct (sheet_get_all_values w (tr ++ [Print (LogMsg sid (PStr txt))]))
      as [table|e];
      [destruct (Unicode.scan_rows str_lower str_strip (str_lower txt) (tl table))
         as [[|c r]|] |];
      rewrite send_message_gets, send_message_sheet_reads;
      rewrite !gets_app, !sheet_reads_app; simpl; lia.
Qed.

(** X20: the user directory is consulted only on the greeting path and the
    keyword source only off it, each at most once per event: an event makes
    one profile request exactly when its text reaches the text branch and
    passes the greeting test, one sheet read exactly when its text reaches
    the text branch and fails the test, and neither in every other case. *)
Theorem event_consults_one_collaborator (w : Env) (e : InboundEvent) (tr : trace) :
  gets (snd (Unicode.handle_event str_lower str_strip w (encode_event e) tr))
  = gets tr + match routed_text e with
              | Some t => if Unicode.greeting_test str_lower str_strip t
                          then 1 else 0
              | None => 0
              end /\
  sheet_reads (snd (Unicode.handle_event str_lower str_strip w (encode_event e) tr))
  = sheet_reads tr + match routed_text e with
                     | Some t => if Unicode.greeting_test str_lower str_strip t
                                 then 0 else 1
                     | None => 0
                     end.
Proof.
  rewrite u_handle_event_encoded. unfold routed_text.
  destruct (message e) as [m|]; [| simpl; lia].
  destruct (flagged_echo m); [simpl; lia |].
  destruct (quickReplyPayload m) as [code|].
  - rewrite send_message_gets, send_message_sheet_reads. lia.
  - destruct (text m) as [[|c r]|]; try (simpl; lia).
    apply u_handle_text_consults.
Qed.

End AnyStrMethods.

Lemma keyword_reply_first_match_witness :
  Unicode.find_reply_from_sheet PyStr.lower PyStr.strip world_ok
    "What's your PRICE?" (received [] (PStr "42") "What's your PRICE?")
  = (Ok (Some "Our pricing starts at $99/month"),
     received [] (PStr "42") "What's your PRICE?" ++ [SheetRead]) /\
  posts (snd (Unicode.handle_text PyStr.lower PyStr.strip world_ok (PStr "42")
                (PStr "What's your PRICE?") []))
  = [reply_payload (PStr "42") "Our pricing starts at $99/month"].
Proof.
  assert (Hg : ~ Unicode.greets PyStr.lower PyStr.strip "What's your PRICE?")
    by (apply u_not_greets_iff; reflexivity).
  assert (Hpre : forall row, In row [["refund"; "Refunds take 5 days."]] ->
                   ~ Unicode.row_matches PyStr.lower PyStr.strip
                       "What's your PRICE?" row)
    by (apply u_no_match_by_test; reflexivity).
  assert (Hrow : Unicode.row_matches PyStr.lower PyStr.strip "What's your PRICE?"
                   ["price"; "Our pricing starts at $99/month"])
    by (apply u_row_matchesb_iff; reflexivity).
  destruct (keyword_reply_first_match PyStr.lower PyStr.strip world_ok (PStr "42")
              "What's your PRICE?" []
              sample_table [["refund"; "Refunds take 5 days."]]
              [["pric"; "Second row"]] "price" "Our pricing starts at $99/month" []
              Hg eq_refl eq_refl Hpre Hrow) as [H1 H2].
  split; [exact H1 | apply H2; discriminate].
Defined.

Lemma fallback_when_nothing_matches_witness :
  (fst (Unicode.find_reply_from_sheet PyStr.lower PyStr.strip world_ok
          "asdkjh random" (received [] (PStr "42") "asdkjh random")) = Ok None /\
   posts (snd (Unicode.handle_text PyStr.lower PyStr.strip world_ok (PStr "42")
                 (PStr "asdkjh random") []))
   = [reply_payload (PStr "42") FALLBACK_MESSAGE]) /\
  (fst (Unicode.find_reply_from_sheet PyStr.lower PyStr.strip world_down
          "what's your price?" (received [] (PStr "42") "what's your price?"))
   = Ok None /\
   posts (snd (Unicode.handle_text PyStr.lower PyStr.strip world_down (PStr "42")
                 (PStr "what's your price?") []))
   = [reply_payload (PStr "42") FALLBACK_MESSAGE]).
Proof.
  split.
  - apply (fallback_when_nothing_matches PyStr.lower PyStr.strip world_ok
             (PStr "42") "asdkjh random" []).
    + apply u_not_greets_iff; reflexivity.
    + change (forall row, In row (tl sample_table) ->
                ~ Unicode.row_matches PyStr.lower PyStr.strip "asdkjh random" row).
      apply u_no_match_by_test; reflexivity.
  - apply (fallback_when_nothing_matches PyStr.lower PyStr.strip world_down
             (PStr "42") "what's your price?" []).
    + apply u_not_greets_iff; reflexivity.
    + exact I.
Defined.

Lemma blank_reply_falls_back_witness :
  fst (Unicode.find_reply_from_sheet PyStr.lower PyStr.strip world_blank_reply
         "what's your price?" (received [] (PStr "42") "what's your price?"))
  = Ok (Some "") /\
  posts (snd (Unicode.handle_text PyStr.lower PyStr.strip world_blank_reply
                (PStr "42") (PStr "what's your price?") []))
  = [reply_payload (PStr "42") FALLBACK_MESSAGE].
Proof.
  apply (blank_reply_falls_back PyStr.lower PyStr.strip world_blank_reply
           (PStr "42") "what's your price?" []
           [ ["Keyword"; "Reply"]; ["price"; ""]; ["pric"; "Second row"] ]
           [] [["pric"; "Second row"]] "price" "" []).
  - apply u_not_greets_iff; reflexivity.
  - reflexivity.
  - reflexivity.
  - intros row [].
  - apply u_row_matchesb_iff; reflexivity.
  - reflexivity.
Defined.

Lemma lookup_reply_comes_from_first_match_witness :
  exists table pre k r rest post,
    sheet_get_all_values world_ok [] = Ok table /\
    tl table = pre ++ (k :: r :: rest) :: post /\
    (forall row, In row pre ->
                 ~ Unicode.row_matches PyStr.lower PyStr.strip "best PRICE?" row) /\
    Unicode.row_matches PyStr.lower PyStr.strip "best PRICE?" (k :: r :: rest) /\
    "Our pricing starts at $99/month" = PyStr.strip r.
Proof.
  apply (lookup_reply_comes_from_first_match PyStr.lower PyStr.strip world_ok
           "best PRICE?" [] [SheetRead] "Our pricing starts at $99/month").
  reflexivity.
Defined.
